(** * noiseImporterUproot: import of recorded ARIANNA noise and its injection

    A shallow embedding of
    [NuRadioReco/modules/io/noise/noiseImporterUproot.py]: the class
    [noiseImporter] with its methods [begin], [_read_temperature_curve],
    [_read_power_curve] and [run].

    Conventions of the embedding.
    - Python exceptions are values of [exn]; a fallible expression has type
      [result A].  The statements of [begin] thread the attributes of the
      importer: an exception leaves the attributes assigned before it.
    - The samples of the waveforms and of the traces are exact rationals
      [Q]: the rounding of their products and sums is not modelled.
      Timestamps are the int32 values of the ['>i4'] interpretation, as
      [Z].
    - The temperatures and voltages, which go through the interpolator,
      are binary64 floats with the operations of IEEE 754, so that the
      interpolated values are the ones the program computes on float64
      readings.
    - [units.mV] is defined in [NuRadioReco.utilities.units]; it is the
      parameter [mV] of every definition that uses it.
    - [scipy.interpolate.interp1d] is given by its algorithm for the linear
      kind: a stable sort of the samples, [searchsorted], the slope of the
      interval with the difference of the int32 times taken in int32, the
      line in float64, and the fill values outside the range of the
      samples.
    - [logger] is [logging.getLogger('noiseImporter')] at the default
      level of the logging module: [logger.warning] is enabled, and raises
      a TypeError when it is passed a keyword that is not one of its own;
      [logger.info] and [logger.debug] are disabled and do nothing.
    - [random.randint] is driven by an explicit raw draw [u]. *)

From Stdlib Require Import String ZArith QArith List Bool Arith Lia.
From Stdlib Require Import PrimFloat Permutation.
Import ListNotations.

Close Scope Q_scope.

(** ** Exceptions and fallible computations *)

Inductive exn : Type :=
| NameError (name : string)
| TypeError
| ValueError
| IndexError
| KeyError (key : string)
| ZeroDivisionError
| AttributeError (attr : string).

Inductive result (A : Type) : Type :=
| Ok (a : A)
| Raise (e : exn).

Arguments Ok {A} a.
Arguments Raise {A} e.

Definition bind {A B : Type} (r : result A) (k : A -> result B) : result B :=
  match r with
  | Ok a => k a
  | Raise e => Raise e
  end.

Notation "x <- r ;; k" := (bind r (fun x => k))
  (at level 61, r at next level, right associativity).

(** ** Python lists and numpy arrays *)

(** [l[a:b]] for [0 <= a], [0 <= b]. *)
Definition slice {A : Type} (a b : nat) (l : list A) : list A :=
  firstn (b - a) (skipn a l).

(** [l[0]] and [l[-1]]. *)
Definition getitem_first {A : Type} (l : list A) : result A :=
  match l with
  | a :: _ => Ok a
  | [] => Raise IndexError
  end.

Definition getitem_last {A : Type} (l : list A) : result A :=
  match rev l with
  | a :: _ => Ok a
  | [] => Raise IndexError
  end.

(** [a[i]] along the first axis, with numpy's treatment of a negative
    index (counted from the end) and of an index outside the axis. *)
Definition np_getitem {A : Type} (l : list A) (i : Z) : result A :=
  let n := Z.of_nat (length l) in
  let j := if (i <? 0)%Z then (i + n)%Z else i in
  if ((0 <=? j)%Z && (j <? n)%Z)%bool
  then match nth_error l (Z.to_nat j) with
       | Some a => Ok a
       | None => Raise IndexError
       end
  else Raise IndexError.

Fixpoint zip_with {A B C : Type} (f : A -> B -> C) (l : list A) (m : list B)
  : list C :=
  match l, m with
  | a :: l', b :: m' => f a b :: zip_with f l' m'
  | _, _ => []
  end.

(** [a += b] on one-dimensional arrays of the same length. *)
Definition iadd (a b : list Q) : result (list Q) :=
  if (length a =? length b)%nat then Ok (zip_with Qplus a b)
  else Raise ValueError.

(** [np.concatenate] of a list of one-dimensional arrays. *)
Definition concatenate {A : Type} (arrays : list (list A)) : result (list A) :=
  match arrays with
  | [] => Raise ValueError
  | _ => Ok (concat arrays)
  end.

(** A three-dimensional array, event x channel x sample.  [np.shape a] is
    [(length (rows a), dim1 a, dim2 a)]. *)
Record ndarray3 : Type := {
  dim1 : nat;
  dim2 : nat;
  rows : list (list (list Q))
}.

(** A well-formed array: every event has [dim1] channels of [dim2] samples. *)
Definition wf_ndarray3 (a : ndarray3) : Prop :=
  Forall (fun ev => length ev = dim1 a /\
                    Forall (fun w => length w = dim2 a) ev) (rows a).

Definition same_dims (a b : ndarray3) : bool :=
  ((dim1 a =? dim1 b)%nat && (dim2 a =? dim2 b)%nat)%bool.

(** [np.concatenate] of three-dimensional arrays along the first axis. *)
Definition concatenate3 (arrays : list ndarray3) : result ndarray3 :=
  match arrays with
  | [] => Raise ValueError
  | a :: _ =>
      if forallb (same_dims a) arrays
      then Ok {| dim1 := dim1 a; dim2 := dim2 a;
                 rows := concat (map rows arrays) |}
      else Raise ValueError
  end.

(** [np.arange(0, stop, step)]: [ceil(stop / step)] multiples of [step]. *)
Definition arange (stop step : nat) : list nat :=
  map (fun k => k * step)%nat (seq 0 ((stop + step - 1) / step)).

(** [np.array(jagged)[:,0]]: the jagged array must convert to a regular
    two-dimensional array with a column 0. *)
Definition np_column0 (records : list (list Z)) : result (list Z) :=
  match records with
  | [] => Raise IndexError
  | r :: _ =>
      if forallb (fun r' => (length r' =? length r)%nat) records
      then match r with
           | [] => Raise IndexError
           | _ :: _ => Ok (map (hd 0%Z) records)
           end
      else Raise ValueError
  end.

(** [jagged[:,0]] on the jagged array itself. *)
Definition ak_column0 (records : list (list Z)) : result (list Z) :=
  if forallb (fun r => negb (length r =? 0)%nat) records
  then Ok (map (hd 0%Z) records)
  else Raise IndexError.

(** The float64 of an integer: exact below [2^53] in magnitude, hence for
    every int32 and for every difference of two of them. *)
Fixpoint float_of_positive (p : positive) : float :=
  match p with
  | xH => 1%float
  | xO p' => (2 * float_of_positive p')%float
  | xI p' => (2 * float_of_positive p' + 1)%float
  end.

Definition float_of_Z (z : Z) : float :=
  match z with
  | Z0 => 0%float
  | Zpos p => float_of_positive p
  | Zneg p => (- float_of_positive p)%float
  end.

(** The float64 of a Python float constant given by a fraction of two
    integers below [2^53]: the nearest float64. *)
Definition float_of_Q (q : Q) : float :=
  (float_of_Z (Qnum q) / float_of_Z (Zpos (Qden q)))%float.

(** The difference of two int32 in int32: it wraps around. *)
Definition wrap_int32 (z : Z) : Z :=
  ((z + 2 ^ 31) mod 2 ^ 32 - 2 ^ 31)%Z.

Definition sub_int32 (a b : Z) : Z := wrap_int32 (a - b).

(** [np.datetime64(int(t), 's')]. *)
Inductive datetime64 : Type :=
| Datetime64_s (seconds : Z).

(** ** The input files *)

(** One entry of [CalibTree]. [fTime] is the decoded [TTimeStamp], the two
    ints [t_s, t_ns]; [fTrgInfo] the decoded trigger record. *)
Record calib_entry : Type := {
  fData : list (list Q);
  fTrgInfo : list Z;
  fTime : list Z;
  fRun : Z;
  fStnId : Z;
  fDTms : Q
}.

Record calib_tree : Type := {
  fData_dim1 : nat;
  fData_dim2 : nat;
  entries : list calib_entry
}.

Definition num_entries (t : calib_tree) : nat := length (entries t).

Record temperature_tree : Type := {
  Temperature_fTime : list (list Z);
  Temperature_fTemp : list float
}.

(** The branches of [VoltageTree] other than the time are looked up by
    their full name. *)
Record voltage_tree : Type := {
  PowerReading_fTime : list (list Z);
  PowerReading_branch : string -> option (list float)
}.

Record noise_file : Type := {
  CalibTree : option calib_tree;
  TemperatureTree : option temperature_tree;
  VoltageTree : option voltage_tree
}.

(** [nf[key]]. *)
Definition getitem_key {A : Type} (key : string) (o : option A) : result A :=
  match o with
  | Some a => Ok a
  | None => Raise (KeyError key)
  end.

(** [nt["AmpOutData."]["AmpOutData.fData"].array(entry_start, entry_stop)]. *)
Definition AmpOutData_array (nt : calib_tree) (entry_start entry_stop : nat)
  : ndarray3 :=
  {| dim1 := fData_dim1 nt; dim2 := fData_dim2 nt;
     rows := map fData (slice entry_start entry_stop (entries nt)) |}.

(** The same call without a range. *)
Definition AmpOutData_full (nt : calib_tree) : ndarray3 :=
  {| dim1 := fData_dim1 nt; dim2 := fData_dim2 nt;
     rows := map fData (entries nt) |}.

(** ** The interpolator: [scipy.interpolate.interp1d], linear kind, with
    [bounds_error=False] and a pair as [fill_value] *)

Record interp1d_obj : Type := {
  ix : list Z;
  iy : list float;
  fill_below : float;
  fill_above : float
}.

(** The stable sort of the samples by time that the constructor performs. *)
Fixpoint insert_sample (p : Z * float) (l : list (Z * float))
  : list (Z * float) :=
  match l with
  | [] => [p]
  | h :: t => if (fst p <=? fst h)%Z then p :: l else h :: insert_sample p t
  end.

Definition sort_samples (l : list (Z * float)) : list (Z * float) :=
  fold_right insert_sample [] l.

(** The constructor rejects series of different lengths and series of
    fewer than two samples. *)
Definition interp1d (x : list Z) (y : list float) (fill_value : float * float)
  : result interp1d_obj :=
  if negb (length x =? length y)%nat then Raise ValueError
  else if (length x <? 2)%nat then Raise ValueError
  else
    let s := sort_samples (combine x y) in
    Ok {| ix := map fst s; iy := map snd s;
          fill_below := fst fill_value; fill_above := snd fill_value |}.

(** [np.searchsorted(xs, q)] on a sorted array: the first index whose
    element is not below [q]. *)
Fixpoint searchsorted (xs : list Z) (q : Z) : nat :=
  match xs with
  | [] => 0
  | x :: r => if (x <? q)%Z then S (searchsorted r q) else 0
  end.

Definition clip (i lo hi : nat) : nat := Nat.min (Nat.max i lo) hi.

(** The linear kind.  [x_hi - x_lo] is a difference of int32 arrays; the
    query is a float64 array, so that [x_new - x_lo] and the line are
    computed in float64.  An interval of width zero makes the slope
    infinite or not-a-number, as the float64 division does. *)
Definition call_linear (f : interp1d_obj) (x_new : Z) : float :=
  let i := clip (searchsorted (ix f) x_new) 1 (length (ix f) - 1) in
  let lo := (i - 1)%nat in
  let hi := i in
  let x_lo := nth lo (ix f) 0%Z in
  let x_hi := nth hi (ix f) 0%Z in
  let y_lo := nth lo (iy f) 0%float in
  let y_hi := nth hi (iy f) 0%float in
  let slope := ((y_hi - y_lo) / float_of_Z (sub_int32 x_hi x_lo))%float in
  (slope * float_of_Z (x_new - x_lo) + y_lo)%float.

(** Evaluation at one query time: the linear value, replaced by the fill
    values outside the range of the samples. *)
Definition interp1d_call (f : interp1d_obj) (x_new : Z) : float :=
  let y_new := call_linear f x_new in
  if (x_new <? hd 0%Z (ix f))%Z then fill_below f
  else if (last (ix f) 0%Z <? x_new)%Z then fill_above f
  else y_new.

(** ** Names visible in [begin] *)

(** A Python object as far as its truth value goes. *)
Inductive pyobj : Type :=
| PyBool (b : bool)
| PyObject.

Definition truthy (o : pyobj) : bool :=
  match o with
  | PyBool b => b
  | PyObject => true
  end.

(** The names bound at module level: the imports, [logger], the two
    dictionaries and the class. *)
Definition module_globals : list (string * pyobj) :=
  [ ("random", PyObject); ("logging", PyObject); ("uproot", PyObject);
    ("np", PyObject); ("interpolate", PyObject);
    ("register_run", PyObject); ("units", PyObject); ("logger", PyObject);
    ("ARIANNA_uproot_interpretation", PyObject);
    ("ARIANNA_TRIGGER", PyObject); ("noiseImporter", PyObject) ]%string.

(** A name that is not assigned in the function body is looked up among
    the globals of the module (no builtin has the name looked up here). *)
Definition load_global (name : string) : result pyobj :=
  match find (fun b => String.eqb (fst b) name) module_globals with
  | Some b => Ok (snd b)
  | None => Raise (NameError name)
  end.

(** An argument passed for [val] of [_read_power_curve]. *)
Inductive pyarg : Type :=
| AStr (s : string)
| AArray (a : list Z).

(** [s + v] for a string [s]. *)
Definition str_add (s : string) (v : pyarg) : result string :=
  match v with
  | AStr t => Ok (s ++ t)%string
  | AArray _ => Raise TypeError
  end.

(** ** The importer *)

(** The attributes of a [noiseImporter]; [None] is an attribute that has
    not been assigned. *)
Record importer : Type := {
  self_data : option ndarray3;
  self_posix_time : option (list Z);
  self_datetime : option (list datetime64);
  self_trigger : option (list Z);
  self_temperature : option (list float);
  self_power : option (list float);
  self_station_id : option (list Z);
  self_dtms : option (list Q);
  self_run_number : option (list Z);
  self_nevts : option nat
}.

Definition new_importer : importer :=
  {| self_data := None; self_posix_time := None; self_datetime := None;
     self_trigger := None; self_temperature := None; self_power := None;
     self_station_id := None; self_dtms := None; self_run_number := None;
     self_nevts := None |}.

(** Statements of a method: the attributes are threaded, an exception ends
    the method and leaves the attributes assigned so far. *)
Definition M (A : Type) : Type := importer -> importer * result A.

Definition ret {A : Type} (a : A) : M A := fun self => (self, Ok a).

Definition bindM {A B : Type} (m : M A) (k : A -> M B) : M B :=
  fun self =>
    match m self with
    | (self', Ok a) => k a self'
    | (self', Raise e) => (self', Raise e)
    end.

Definition lift {A : Type} (r : result A) : M A := fun self => (self, r).

Definition getattr {A : Type} (name : string) (get : importer -> option A)
  : M A :=
  fun self =>
    match get self with
    | Some a => (self, Ok a)
    | None => (self, Raise (AttributeError name))
    end.

Notation "x <-- m ;;; k" := (bindM m (fun x => k))
  (at level 61, m at next level, right associativity).
Notation "m ;;; k" := (bindM m (fun _ => k))
  (at level 61, right associativity).

Definition set_data (v : ndarray3) : M unit := fun s =>
  ({| self_data := Some v; self_posix_time := self_posix_time s;
      self_datetime := self_datetime s; self_trigger := self_trigger s;
      self_temperature := self_temperature s; self_power := self_power s;
      self_station_id := self_station_id s; self_dtms := self_dtms s;
      self_run_number := self_run_number s; self_nevts := self_nevts s |},
   Ok tt).

Definition set_posix_time (v : list Z) : M unit := fun s =>
  ({| self_data := self_data s; self_posix_time := Some v;
      self_datetime := self_datetime s; self_trigger := self_trigger s;
      self_temperature := self_temperature s; self_power := self_power s;
      self_station_id := self_station_id s; self_dtms := self_dtms s;
      self_run_number := self_run_number s; self_nevts := self_nevts s |},
   Ok tt).

Definition set_datetime (v : list datetime64) : M unit := fun s =>
  ({| self_data := self_data s; self_posix_time := self_posix_time s;
      self_datetime := Some v; self_trigger := self_trigger s;
      self_temperature := self_temperature s; self_power := self_power s;
      self_station_id := self_station_id s; self_dtms := self_dtms s;
      self_run_number := self_run_number s; self_nevts := self_nevts s |},
   Ok tt).

Definition set_trigger (v : list Z) : M unit := fun s =>
  ({| self_data := self_data s; self_posix_time := self_posix_time s;
      self_datetime := self_datetime s; self_trigger := Some v;
      self_temperature := self_temperature s; self_power := self_power s;
      self_station_id := self_station_id s; self_dtms := self_dtms s;
      self_run_number := self_run_number s; self_nevts := self_nevts s |},
   Ok tt).

Definition set_temperature (v : list float) : M unit := fun s =>
  ({| self_data := self_data s; self_posix_time := self_posix_time s;
      self_datetime := self_datetime s; self_trigger := self_trigger s;
      self_temperature := Some v; self_power := self_power s;
      self_station_id := self_station_id s; self_dtms := self_dtms s;
      self_run_number := self_run_number s; self_nevts := self_nevts s |},
   Ok tt).

Definition set_power (v : list float) : M unit := fun s =>
  ({| self_data := self_data s; self_posix_time := self_posix_time s;
      self_datetime := self_datetime s; self_trigger := self_trigger s;
      self_temperature := self_temperature s; self_power := Some v;
      self_station_id := self_station_id s; self_dtms := self_dtms s;
      self_run_number := self_run_number s; self_nevts := self_nevts s |},
   Ok tt).

Definition set_station_id (v : list Z) : M unit := fun s =>
  ({| self_data := self_data s; self_posix_time := self_posix_time s;
      self_datetime := self_datetime s; self_trigger := self_trigger s;
      self_temperature := self_temperature s; self_power := self_power s;
      self_station_id := Some v; self_dtms := self_dtms s;
      self_run_number := self_run_number s; self_nevts := self_nevts s |},
   Ok tt).

Definition set_dtms (v : list Q) : M unit := fun s =>
  ({| self_data := self_data s; self_posix_time := self_posix_time s;
      self_datetime := self_datetime s; self_trigger := self_trigger s;
      self_temperature := self_temperature s; self_power := self_power s;
      self_station_id := self_station_id s; self_dtms := Some v;
      self_run_number := self_run_number s; self_nevts := self_nevts s |},
   Ok tt).

Definition set_run_number (v : list Z) : M unit := fun s =>
  ({| self_data := self_data s; self_posix_time := self_posix_time s;
      self_datetime := self_datetime s; self_trigger := self_trigger s;
      self_temperature := self_temperature s; self_power := self_power s;
      self_station_id := self_station_id s; self_dtms := self_dtms s;
      self_run_number := Some v; self_nevts := self_nevts s |},
   Ok tt).

Definition set_nevts (v : nat) : M unit := fun s =>
  ({| self_data := self_data s; self_posix_time := self_posix_time s;
      self_datetime := self_datetime s; self_trigger := self_trigger s;
      self_temperature := self_temperature s; self_power := self_power s;
      self_station_id := self_station_id s; self_dtms := self_dtms s;
      self_run_number := self_run_number s; self_nevts := Some v |},
   Ok tt).

(** ** [random.randint] *)

(** [random._randbelow(n)] for [0 < n], from a raw draw [u]. *)
Definition randbelow (n u : Z) : Z := (u mod n)%Z.

(** [random.randrange(start, stop)]. *)
Definition randrange (start stop u : Z) : result Z :=
  let width := (stop - start)%Z in
  if (0 <? width)%Z then Ok (start + randbelow width u)%Z
  else Raise ValueError.

(** [random.randint(a, b)] is [randrange(a, b+1)]. *)
Definition randint (a b u : Z) : result Z := randrange a (b + 1) u.

(** ** Channels of the simulated station and the log *)

Record Channel : Type := {
  get_id : Z;
  get_trace : list Q;
  get_sampling_rate : Q
}.

Definition set_trace (c : Channel) (trace : list Q) (sampling_rate : Q)
  : Channel :=
  {| get_id := get_id c; get_trace := trace;
     get_sampling_rate := sampling_rate |}.

(** The two warnings of [run], with the values they are formatted with. *)
Inductive log_record : Type :=
| Warning_channel_not_in_file (ch_orig n_chan ch_new : Z)
| Warning_mismatch (noise_samples trace_samples : nat).

(** The keywords of [logging.Logger.warning]. *)
Definition Logger_keywords : list string :=
  ["exc_info"; "stack_info"; "stacklevel"; "extra"]%string.

(** [logger.warning(msg, **kwargs)] with warnings enabled: the record is
    emitted, unless a keyword is not one of the logger's; then the call
    raises a TypeError and nothing is emitted. *)
Definition logger_warning (record : log_record) (kwargs : list string)
  : result (list log_record) :=
  if forallb (fun k => existsb (String.eqb k) Logger_keywords) kwargs
  then Ok [record]
  else Raise TypeError.

(** The per-file lists of [begin]. *)
Record accumulators : Type := {
  acc_data : list ndarray3;
  acc_trigger : list (list Z);
  acc_posix_times : list (list Z);
  acc_run : list (list Z);
  acc_station_id : list (list Z);
  acc_temperature : list (list float);
  acc_power_voltage : list (list float);
  acc_dtms : list (list Q)
}.

Definition empty_accumulators : accumulators :=
  {| acc_data := []; acc_trigger := []; acc_posix_times := [];
     acc_run := []; acc_station_id := []; acc_temperature := [];
     acc_power_voltage := []; acc_dtms := [] |}.

(** [_read_temperature_curve(nf, interpolation_times)]. *)
Definition _read_temperature_curve (nf : noise_file)
    (interpolation_times : option (list Z)) : result (list Z * list float) :=
  nt <- getitem_key "TemperatureTree" (TemperatureTree nf) ;;
  time <- ak_column0 (Temperature_fTime nt) ;;
  let data := Temperature_fTemp nt in
  match interpolation_times with
  | None => Ok (time, data)
  | Some times =>
      data_0 <- getitem_first data ;;
      data_last <- getitem_last data ;;
      interpolator <- interp1d time data (data_0, data_last) ;;
      Ok (times, map (interp1d_call interpolator) times)
  end.

Section WithUnits.

(** [units.mV]. *)
Variable mV : Q.

(** [array * units.mV]. *)
Definition scale (w : list Q) : list Q := map (fun x => (x * mV)%Q) w.

Definition scale3 (a : ndarray3) : ndarray3 :=
  {| dim1 := dim1 a; dim2 := dim2 a; rows := map (map scale) (rows a) |}.

(** The branch of [begin] for a file of fewer than 1000 entries: one
    read of the whole field. *)
Definition read_single (nt_uproot : calib_tree) : list ndarray3 :=
  [AmpOutData_full nt_uproot].

(** The other branch: one read per bunch of 1000 entries. *)
Definition read_bunched (nt_uproot : calib_tree) : list ndarray3 :=
  let bunches := arange (num_entries nt_uproot) 1000
                 ++ [num_entries nt_uproot] in
  let first := removelast bunches in
  let last := tl bunches in
  map (fun i => scale3 (AmpOutData_array nt_uproot
                          (nth i first 0%nat) (nth i last 0%nat)))
      (seq 0 (length first)).

(** The arrays that one file appends to [data]. *)
Definition read_AmpOutData (nt_uproot : calib_tree) : list ndarray3 :=
  if (num_entries nt_uproot <? 1000)%nat then read_single nt_uproot
  else read_bunched nt_uproot.

(** [_read_power_curve(nf, val, interpolation_times)]. *)
Definition _read_power_curve (nf : noise_file) (val : pyarg)
    (interpolation_times : option (list Z))
  : result (list Z * list float) :=
  nt <- getitem_key "VoltageTree" (VoltageTree nf) ;;
  time <- ak_column0 (PowerReading_fTime nt) ;;
  name <- str_add "PowerReading./PowerReading.fave" val ;;
  branch <- getitem_key name (PowerReading_branch nt name) ;;
  let data := map (fun v => (v * float_of_Q mV)%float) branch in
  match interpolation_times with
  | None => Ok (time, data)
  | Some times =>
      data_0 <- getitem_first data ;;
      data_last <- getitem_last data ;;
      interpolator <- interp1d time data (data_0, data_last) ;;
      Ok (times, map (interp1d_call interpolator) times)
  end.

(** The body of the loop of [begin] over the input files. *)
Definition begin_file (read_temperatures read_power : bool)
    (nf_uproot : noise_file) (acc : accumulators) : result accumulators :=
  nt_uproot <- getitem_key "CalibTree" (CalibTree nf_uproot) ;;
  let data := (acc_data acc ++ read_AmpOutData nt_uproot)%list in
  trg <- np_column0 (map fTrgInfo (entries nt_uproot)) ;;
  let trigger := (acc_trigger acc ++ [trg])%list in
  event_times_file <- np_column0 (map fTime (entries nt_uproot)) ;;
  let posix_times := (acc_posix_times acc ++ [event_times_file])%list in
  temperature <-
    (if read_temperatures
     then r <- _read_temperature_curve nf_uproot (Some event_times_file) ;;
          Ok (acc_temperature acc ++ [snd r])%list
     else Ok (acc_temperature acc)) ;;
  let run := (acc_run acc ++ [map fRun (entries nt_uproot)])%list in
  let station_id :=
    (acc_station_id acc ++ [map fStnId (entries nt_uproot)])%list in
  let dtms := (acc_dtms acc ++ [map fDTms (entries nt_uproot)])%list in
  power_voltage <-
    (if read_power
     then r <- _read_power_curve nf_uproot (AArray event_times_file) None ;;
          Ok (acc_power_voltage acc ++ [snd r])%list
     else Ok (acc_power_voltage acc)) ;;
  Ok {| acc_data := data; acc_trigger := trigger;
        acc_posix_times := posix_times; acc_run := run;
        acc_station_id := station_id; acc_temperature := temperature;
        acc_power_voltage := power_voltage; acc_dtms := dtms |}.

Fixpoint begin_loop (read_temperatures read_power : bool)
    (noise_files : list noise_file) (acc : accumulators)
  : result accumulators :=
  match noise_files with
  | [] => Ok acc
  | noise_file :: rest =>
      acc' <- begin_file read_temperatures read_power noise_file acc ;;
      begin_loop read_temperatures read_power rest acc'
  end.

(** [begin(noise_files, read_temperatures, read_power)]. *)
Definition begin (noise_files : list noise_file)
    (read_temperatures read_power : bool) : M unit :=
  acc <-- lift (begin_loop read_temperatures read_power noise_files
                  empty_accumulators) ;;;
  data <-- lift (concatenate3 (acc_data acc)) ;;;
  set_data data ;;;
  posix_time <-- lift (concatenate (acc_posix_times acc)) ;;;
  set_posix_time posix_time ;;;
  posix_time <-- getattr "posix_time" self_posix_time ;;;
  set_datetime (map Datetime64_s posix_time) ;;;
  trigger <-- lift (concatenate (acc_trigger acc)) ;;;
  set_trigger trigger ;;;
  read_temperature <-- lift (load_global "read_temperature") ;;;
  (if truthy read_temperature
   then temperature <-- lift (concatenate (acc_temperature acc)) ;;;
        set_temperature temperature
   else ret tt) ;;;
  (if read_power
   then power <-- lift (concatenate (acc_power_voltage acc)) ;;;
        set_power power
   else ret tt) ;;;
  station_id <-- lift (concatenate (acc_station_id acc)) ;;;
  set_station_id station_id ;;;
  dtms <-- lift (concatenate (acc_dtms acc)) ;;;
  set_dtms dtms ;;;
  run_number <-- lift (concatenate (acc_run acc)) ;;;
  set_run_number run_number ;;;
  data <-- getattr "data" self_data ;;;
  set_nevts (length (rows data)).

(** Lines 178-183 of [run]: a channel id above the last channel of the
    corpus is reduced modulo the number of channels, and a warning is
    called with the keywords [ch_orig], [n_chan] and [ch_new]. *)
Definition check_channel (nchans channel_id : Z)
  : result (Z * list log_record) :=
  if (channel_id >? nchans - 1)%Z
  then if (nchans =? 0)%Z then Raise ZeroDivisionError
       else
         let orig_channel_id := channel_id in
         let channel_id := (channel_id mod nchans)%Z in
         warned <- logger_warning
                     (Warning_channel_not_in_file orig_channel_id nchans
                        channel_id)
                     ["ch_orig"; "n_chan"; "ch_new"]%string ;;
         Ok (channel_id, warned)
  else Ok (channel_id, []).

(** Lines 192-195 of [run]: the noise trace is added to the trace of the
    channel. *)
Definition add_noise (data : ndarray3) (noise_event channel_id : Z)
    (channel : Channel) : result Channel :=
  let trace := get_trace channel in
  event <- np_getitem (rows data) noise_event ;;
  waveform <- np_getitem event channel_id ;;
  noise_trace <- iadd (scale waveform) trace ;;
  Ok (set_trace channel noise_trace (get_sampling_rate channel)).

(** The body of the loop of [run] for one channel, with the raw draw [u]
    of its call to [random.randint].  The warnings emitted are returned
    also when an exception is raised. *)
Definition run_channel (self : importer) (u : Z) (channel : Channel)
  : list log_record * result Channel :=
  let channel_id := get_id channel in
  match self_nevts self with
  | None => ([], Raise (AttributeError "nevts"))
  | Some nevts =>
  match randint 0 (Z.of_nat nevts) u with
  | Raise e => ([], Raise e)
  | Ok noise_event =>
  match self_data self with
  | None => ([], Raise (AttributeError "data"))
  | Some data =>
  let nchans := Z.of_nat (dim1 data) in
  match check_channel nchans channel_id with
  | Raise e => ([], Raise e)
  | Ok (channel_id, warned) =>
  let noise_samples := dim2 data in
  let trace := get_trace channel in
  if negb (noise_samples =? length trace)%nat
  then match logger_warning
               (Warning_mismatch noise_samples (length trace)) [] with
       | Raise e => (warned, Raise e)
       | Ok mismatch => ((warned ++ mismatch)%list, Ok channel)
       end
  else (warned, add_noise data noise_event channel_id channel)
  end end end end.

(** [run(evt, station, det)]: the loop over the channels of the station.
    [rng k] is the raw draw of the [k]-th call to [random.randint].  The
    result is the station after the call, the warnings, and the exception
    that ended the call, if any. *)
Fixpoint run_from (self : importer) (rng : nat -> Z) (k : nat)
    (channels : list Channel)
  : list Channel * list log_record * option exn :=
  match channels with
  | [] => ([], [], None)
  | channel :: rest =>
      match run_channel self (rng k) channel with
      | (warned, Raise e) => (channel :: rest, warned, Some e)
      | (warned, Ok channel') =>
          match run_from self rng (S k) rest with
          | (rest', warned', e) =>
              (channel' :: rest', (warned ++ warned')%list, e)
          end
      end
  end.

Definition run (self : importer) (rng : nat -> Z) (station : list Channel)
  : list Channel * list log_record * option exn :=
  run_from self rng 0 station.

End WithUnits.

(** ** Derived notions used in the statements *)

(** The pairs [(first[i], last[i])] of the loop over the bunches: the
    neighbours in [bunches]. *)
Fixpoint neighbours (b : list nat) : list (nat * nat) :=
  match b with
  | x :: (y :: _) as r => (x, y) :: neighbours r
  | _ => []
  end.

(** The entries of the calibration tree of a file. *)
Definition file_entries (nf : noise_file) : list calib_entry :=
  match CalibTree nf with
  | Some nt => entries nt
  | None => []
  end.

(** The first decoded element of the timestamp of an entry: [t_s]. *)
Definition seconds (e : calib_entry) : Z := hd 0%Z (fTime e).

(** Following the words of the specification: the timestamp that combines
    the seconds and the nanoseconds of an event. *)
Definition combined_timestamp (t_s t_ns : Z) : Q :=
  (inject_Z t_s + inject_Z t_ns / 1000000000)%Q.

(** The waveform [data[noise_event][channel_id]] for indices in range. *)
Definition waveform (data : ndarray3) (noise_event channel_id : Z) : list Q :=
  nth (Z.to_nat channel_id) (nth (Z.to_nat noise_event) (rows data) []) [].

(** Sample times that do not decrease. *)
Fixpoint nondecreasing (x : list Z) : Prop :=
  match x with
  | a :: (b :: _) as r => (a <= b)%Z /\ nondecreasing r
  | _ => True
  end.




(** The interpolator that the constructor returns for a series that is
    sorted already. *)
Definition series_interpolator (x : list Z) (y : list float)
    (below above : float) : interp1d_obj :=
  {| ix := x; iy := y; fill_below := below; fill_above := above |}.

(** ** Concrete inputs *)

Definition example_entry (v : Q) (t_s t_ns : Z) : calib_entry :=
  {| fData := [[v]]; fTrgInfo := [2%Z]; fTime := [t_s; t_ns];
     fRun := 7%Z; fStnId := 51%Z; fDTms := 3%Q |}.

(** A calibration tree of one event, one channel, one sample. *)
Definition example_tree : calib_tree :=
  {| fData_dim1 := 1; fData_dim2 := 1;
     entries := [example_entry 1 10 500000000] |}.

Definition example_voltage : voltage_tree :=
  {| PowerReading_fTime := [[0; 0]; [20; 0]]%Z;
     PowerReading_branch := fun name =>
       if String.eqb name "PowerReading./PowerReading.faveV1"
       then Some [3300%float; 3400%float] else None |}.

Definition example_temperature : temperature_tree :=
  {| Temperature_fTime := [[0; 0]; [20; 0]]%Z;
     Temperature_fTemp := [20%float; 30%float] |}.

Definition example_file : noise_file :=
  {| CalibTree := Some example_tree;
     TemperatureTree := Some example_temperature;
     VoltageTree := Some example_voltage |}.

(** The same event recorded half a second earlier within the second. *)
Definition example_file_0ns : noise_file :=
  {| CalibTree := Some {| fData_dim1 := 1; fData_dim2 := 1;
                          entries := [example_entry 1 10 0] |};
     TemperatureTree := Some example_temperature;
     VoltageTree := Some example_voltage |}.



Definition corpus_of (data : ndarray3) : importer :=
  {| self_data := Some data; self_posix_time := None; self_datetime := None;
     self_trigger := None; self_temperature := None; self_power := None;
     self_station_id := None; self_dtms := None; self_run_number := None;
     self_nevts := Some (length (rows data)) |}.

(** A corpus of two events, four channels, two samples. *)
Definition example_data : ndarray3 :=
  {| dim1 := 4; dim2 := 2;
     rows := [ [[1; 2]; [3; 4]; [5; 6]; [7; 8]];
               [[10; 20]; [30; 40]; [50; 60]; [70; 80]] ]%Q |}.

(** A corpus of one event, four channels, 512 samples. *)
Definition data_512 : ndarray3 :=
  {| dim1 := 4; dim2 := 512;
     rows := [ repeat (repeat 1%Q 512) 4 ] |}.

Definition example_channel (id : Z) (trace : list Q) : Channel :=
  {| get_id := id; get_trace := trace; get_sampling_rate := 2%Q |}.

(** ** Further notions: the trigger map and what [begin] reads per file *)

(** [ARIANNA_TRIGGER]: the bit of the trigger mask for each kind of
    trigger. *)
Definition ARIANNA_TRIGGER : list (string * Z) :=
  [ ("thermal", 2 ^ 0); ("forced", 2 ^ 1); ("external", 2 ^ 2);
    ("l1", 2 ^ 3); ("l1_scaledown", 2 ^ 5); ("l1_enabled", 2 ^ 6);
    ("exceeding_buffer", 2 ^ 7) ]%string%Z.

(** The first decoded element of the trigger record of an entry. *)
Definition trigger_byte (e : calib_entry) : Z := hd 0%Z (fTrgInfo e).

(** The waveform rows that [begin] stores for one file: the raw rows of a
    file of fewer than 1000 entries, the rows times [units.mV] otherwise. *)
Definition file_rows (mV : Q) (nf : noise_file) : list (list (list Q)) :=
  match CalibTree nf with
  | Some nt =>
      if (num_entries nt <? 1000)%nat then map fData (entries nt)
      else map (map (scale mV)) (map fData (entries nt))
  | None => []
  end.

(** The number of events of a list of files. *)
Definition total_entries (noise_files : list noise_file) : nat :=
  list_sum (map (fun nf => length (file_entries nf)) noise_files).



(** A file of 2500 events, numbered in their first sample. *)
Definition long_tree : calib_tree :=
  {| fData_dim1 := 1; fData_dim2 := 1;
     entries := map (fun k => example_entry (inject_Z (Z.of_nat k)) 0 0)
                    (seq 0 2500) |}.

(** The arrays that [begin] appends to [data] for one file. *)
Definition file_arrays (mV : Q) (nf : noise_file) : list ndarray3 :=
  match CalibTree nf with
  | Some nt => read_AmpOutData mV nt
  | None => []
  end.

(** * Properties *)

(** ** Slices and bunches *)

Lemma firstn_add_skipn {A : Type} (p q : nat) (l : list A) :
  firstn (p + q) l = (firstn p l ++ firstn q (skipn p l))%list.
Proof.
  revert l; induction p as [|p IH]; intros l; simpl.
  - reflexivity.
  - destruct l as [|a l]; simpl.
    + now rewrite firstn_nil.
    + now rewrite IH.
Qed.

Lemma skipn_add {A : Type} (p q : nat) (l : list A) :
  skipn (p + q) l = skipn q (skipn p l).
Proof.
  revert l; induction p as [|p IH]; intros l; simpl.
  - reflexivity.
  - destruct l as [|a l]; simpl.
    + now rewrite skipn_nil.
    + apply IH.
Qed.

Lemma slice_app {A : Type} (a b c : nat) (l : list A) :
  (a <= b)%nat -> (b <= c)%nat ->
  slice a c l = (slice a b l ++ slice b c l)%list.
Proof.
  intros Hab Hbc. unfold slice.
  replace (c - a)%nat with ((b - a) + (c - b))%nat by lia.
  rewrite firstn_add_skipn. f_equal. f_equal.
  rewrite <- skipn_add. f_equal. lia.
Qed.

Lemma slice_all {A : Type} (l : list A) : slice 0 (length l) l = l.
Proof. unfold slice. rewrite Nat.sub_0_r. simpl. apply firstn_all. Qed.

Lemma combine_removelast_tl (b : list nat) :
  combine (removelast b) (tl b) = neighbours b.
Proof.
  induction b as [|x r IH]; [reflexivity|].
  destruct r as [|y r]; [reflexivity|].
  change (removelast (x :: y :: r)) with (x :: removelast (y :: r)).
  change (tl (x :: y :: r)) with (y :: r).
  change (neighbours (x :: y :: r)) with ((x, y) :: neighbours (y :: r)).
  rewrite <- IH. simpl. destruct r; reflexivity.
Qed.

Lemma map_nth_seq {B : Type} (g : nat -> nat -> B) (f l : list nat) :
  (length f <= length l)%nat ->
  map (fun i => g (nth i f 0%nat) (nth i l 0%nat)) (seq 0 (length f))
  = map (fun p => g (fst p) (snd p)) (combine f l).
Proof.
  revert l; induction f as [|x f IH]; intros l Hl; [reflexivity|].
  destruct l as [|y l]; [simpl in Hl; lia|].
  simpl. f_equal.
  rewrite <- seq_shift, map_map. apply IH. simpl in Hl. lia.
Qed.

Lemma length_removelast_le_tl (b : list nat) :
  (length (removelast b) <= length (tl b))%nat.
Proof.
  destruct b as [|x r]; [simpl; lia|].
  revert x; induction r as [|y r IH]; intros x; [simpl; lia|].
  change (removelast (x :: y :: r)) with (x :: removelast (y :: r)).
  specialize (IH y). simpl in *. lia.
Qed.

Lemma neighbours_cover {A : Type} (s n : nat) (l : list A) :
  forall m a, ((a + m) * s <= n)%nat ->
  concat (map (fun p => slice (fst p) (snd p) l)
              (neighbours (map (fun k => (k * s)%nat) (seq a (S m)) ++ [n])))
  = slice (a * s) n l.
Proof.
  induction m as [|m IH]; intros a Ha.
  - simpl. apply app_nil_r.
  - replace (map (fun k => (k * s)%nat) (seq a (S (S m))) ++ [n])%list
      with (a * s :: S a * s
              :: (map (fun k => (k * s)%nat) (seq (S (S a)) m) ++ [n]))%nat%list
      by reflexivity.
    change (neighbours (a * s :: S a * s
              :: (map (fun k => (k * s)%nat) (seq (S (S a)) m) ++ [n]))%nat)
      with ((a * s, S a * s)%nat
              :: neighbours (map (fun k => (k * s)%nat) (seq (S a) (S m))
                               ++ [n])).
    cbn [map concat fst snd].
    rewrite IH by lia.
    symmetry. apply slice_app; nia.
Qed.

Lemma bunches_cover {A : Type} (s : nat) (l : list A) :
  (0 < s)%nat ->
  let bunches := (arange (length l) s ++ [length l])%list in
  let first := removelast bunches in
  let last := tl bunches in
  concat (map (fun i => slice (nth i first 0%nat) (nth i last 0%nat) l)
              (seq 0 (length first))) = l.
Proof.
  intros Hs bunches first last.
  unfold first, last.
  rewrite (map_nth_seq (fun a b => slice a b l))
    by apply length_removelast_le_tl.
  rewrite combine_removelast_tl. unfold bunches, arange.
  destruct ((length l + s - 1) / s)%nat as [|m] eqn:Hm.
  - simpl.
    assert (length l = 0)%nat as H0.
    { destruct (length l) as [|n]; [reflexivity|].
      assert (1 <= (S n + s - 1) / s)%nat
        by (apply Nat.div_le_lower_bound; lia).
      lia. }
    destruct l; [reflexivity | discriminate].
  - rewrite neighbours_cover.
    + apply slice_all.
    + assert (s * ((length l + s - 1) / s) <= length l + s - 1)%nat
        by (apply Nat.Div0.mul_div_le).
      rewrite Hm in H. nia.
Qed.

(** ** Reading the waveforms *)

Section Reading.

Variable mV : Q.

Lemma read_single_rows (nt : calib_tree) :
  concat (map rows (read_single nt)) = map fData (entries nt).
Proof. simpl. apply app_nil_r. Qed.

(** The bunches cover the entries once and in order: the bunched read is
    the scaled full read. *)
Lemma read_bunched_rows (nt : calib_tree) :
  concat (map rows (read_bunched mV nt))
  = map (map (scale mV)) (map fData (entries nt)).
Proof.
  unfold read_bunched, num_entries.
  rewrite map_map. cbn [rows scale3 AmpOutData_array].
  set (bunches := (arange (length (entries nt)) 1000
                   ++ [length (entries nt)])%list).
  transitivity
    (map (map (scale mV))
       (map fData
          (concat (map (fun i => slice (nth i (removelast bunches) 0%nat)
                                   (nth i (tl bunches) 0%nat) (entries nt))
                       (seq 0 (length (removelast bunches))))))).
  - rewrite !concat_map, !map_map. reflexivity.
  - do 2 f_equal. apply (@bunches_cover _ 1000 (entries nt)). lia.
Qed.

Lemma read_bunched_dims (nt : calib_tree) :
  Forall (fun a => dim1 a = fData_dim1 nt /\ dim2 a = fData_dim2 nt)
         (read_bunched mV nt).
Proof.
  unfold read_bunched. apply Forall_forall. intros a Ha.
  apply in_map_iff in Ha. destruct Ha as [i [<- _]]. split; reflexivity.
Qed.

End Reading.

(** ** [begin] *)

Lemma load_read_temperature :
  load_global "read_temperature" = Raise (NameError "read_temperature").
Proof. reflexivity. Qed.

Lemma np_column0_ok (records : list (list Z)) (column : list Z) :
  np_column0 records = Ok column ->
  column = map (hd 0%Z) records /\ Forall (fun r => r <> []) records.
Proof.
  unfold np_column0. destruct records as [|r rest]; [discriminate|].
  destruct (forallb _ _) eqn:Hall; [|discriminate].
  destruct r as [|a r]; [discriminate|].
  intros H; injection H as <-. split; [reflexivity|].
  rewrite forallb_forall in Hall. apply Forall_forall. intros r' Hin Hnil.
  specialize (Hall r' Hin). subst r'. discriminate.
Qed.

Section Begin.

Variable mV : Q.

Lemma begin_file_posix_times (rt rp : bool) (nf : noise_file)
    (acc acc' : accumulators) :
  begin_file mV rt rp nf acc = Ok acc' ->
  acc_posix_times acc'
  = (acc_posix_times acc ++ [map seconds (file_entries nf)])%list
  /\ Forall (fun e => fTime e <> []) (file_entries nf).
Proof.
  unfold begin_file, file_entries.
  destruct (CalibTree nf) as [nt|]; [|discriminate]. cbn [getitem_key bind].
  destruct (np_column0 (map fTrgInfo (entries nt))); [|discriminate].
  cbn [bind].
  destruct (np_column0 (map fTime (entries nt))) as [times|] eqn:Ht;
    [|discriminate].
  cbn [bind].
  apply np_column0_ok in Ht. destruct Ht as [-> Hne].
  destruct (if rt then _ else _); [|discriminate]. cbn [bind].
  destruct (if rp then _ else _); [|discriminate]. cbn [bind].
  intros H; injection H as <-. cbn [acc_posix_times]. split.
  - now rewrite map_map.
  - rewrite Forall_map in Hne. exact Hne.
Qed.

Lemma begin_loop_posix_times (rt rp : bool) (noise_files : list noise_file) :
  forall acc acc',
  begin_loop mV rt rp noise_files acc = Ok acc' ->
  acc_posix_times acc'
  = (acc_posix_times acc
     ++ map (fun nf => map seconds (file_entries nf)) noise_files)%list
  /\ Forall (fun nf => Forall (fun e => fTime e <> []) (file_entries nf))
            noise_files.
Proof.
  induction noise_files as [|nf rest IH]; intros acc acc' H.
  - injection H as <-. now rewrite app_nil_r.
  - cbn [begin_loop] in H.
    destruct (begin_file mV rt rp nf acc) as [acc1|] eqn:Hf; [|discriminate].
    cbn [bind] in H. apply begin_file_posix_times in Hf.
    destruct Hf as [Hp Hne]. apply IH in H. destruct H as [H Hrest].
    split; [|now constructor].
    rewrite H, Hp, <- app_assoc. reflexivity.
Qed.

(** With [read_power], the event times are passed where the name of the
    voltage is expected: the call never returns. *)
Lemma read_power_curve_of_array (nf : noise_file) (times : list Z)
    (interpolation_times : option (list Z)) :
  exists e, _read_power_curve mV nf (AArray times) interpolation_times
            = Raise e.
Proof.
  unfold _read_power_curve.
  destruct (VoltageTree nf) as [nt|]; cbn [getitem_key bind]; [|eauto].
  destruct (ak_column0 _); cbn [bind str_add]; eauto.
Qed.

Lemma begin_file_read_power (rt : bool) (nf : noise_file)
    (acc : accumulators) :
  exists e, begin_file mV rt true nf acc = Raise e.
Proof.
  unfold begin_file.
  destruct (CalibTree nf) as [nt|]; cbn [getitem_key bind]; [|eauto].
  destruct (np_column0 (map fTrgInfo (entries nt))); cbn [bind]; [|eauto].
  destruct (np_column0 (map fTime (entries nt))) as [times|];
    cbn [bind]; [|eauto].
  destruct (if rt then _ else _); cbn [bind]; [|eauto].
  destruct (read_power_curve_of_array nf times None) as [e ->].
  cbn [bind]. eauto.
Qed.

(** [begin] ends in an exception whatever its arguments. *)
Lemma begin_always_raises (noise_files : list noise_file) (rt rp : bool)
    (self : importer) :
  exists e, snd (begin mV noise_files rt rp self) = Raise e.
Proof.
  unfold begin, bindM, lift.
  destruct (begin_loop mV rt rp noise_files empty_accumulators) as [acc|];
    [|simpl; eauto].
  destruct (concatenate3 (acc_data acc)); [|simpl; eauto].
  cbn [set_data].
  destruct (concatenate (acc_posix_times acc)); [|simpl; eauto].
  cbn [set_posix_time getattr self_posix_time set_datetime].
  destruct (concatenate (acc_trigger acc)); [|simpl; eauto].
  cbn [set_trigger]. rewrite load_read_temperature. simpl. eauto.
Qed.

(** The attributes assigned after the name lookup are never assigned. *)
Lemma begin_leaves_unassigned (noise_files : list noise_file) (rt rp : bool)
    (self : importer) :
  let self' := fst (begin mV noise_files rt rp self) in
  self_temperature self' = self_temperature self
  /\ self_power self' = self_power self
  /\ self_station_id self' = self_station_id self
  /\ self_dtms self' = self_dtms self
  /\ self_run_number self' = self_run_number self
  /\ self_nevts self' = self_nevts self.
Proof.
  unfold begin, bindM, lift.
  destruct (begin_loop mV rt rp noise_files empty_accumulators) as [acc|];
    [|simpl; auto 10].
  destruct (concatenate3 (acc_data acc)); [|simpl; auto 10].
  cbn [set_data].
  destruct (concatenate (acc_posix_times acc)); [|simpl; auto 10].
  cbn [set_posix_time getattr self_posix_time set_datetime].
  destruct (concatenate (acc_trigger acc)); [|simpl; auto 10].
  cbn [set_trigger]. rewrite load_read_temperature. simpl. auto 10.
Qed.

End Begin.

(** ** The claims on [begin] *)

(** C1. The two branches that read [AmpOutData.fData] do not agree: on a
    file of fewer than 1000 entries (here one entry of value 1) [begin]
    appends the raw array, while the bunched read of the same field yields
    the array multiplied by [units.mV]. *)
Theorem read_single_omits_scaling :
  (forall mV, read_AmpOutData mV example_tree
              = [ {| dim1 := 1; dim2 := 1; rows := [[[1%Q]]] |} ])
  /\ (forall mV, read_bunched mV example_tree
                 = [ {| dim1 := 1; dim2 := 1; rows := [[[(1 * mV)%Q]]] |} ])
  /\ read_AmpOutData (1 # 1000) example_tree
     <> read_bunched (1 # 1000) example_tree.
Proof.
  split; [reflexivity|]. split; [reflexivity|].
  intros H. vm_compute in H. discriminate H.
Qed.

(** C2. [begin] never completes: it ends in an exception for every list of
    files and every choice of flags.  On a valid file with both flags
    false the exception is the NameError of the name [read_temperature],
    raised after [data], [posix_time], [datetime] and [trigger] have been
    assigned and before [station_id], [dtms], [run_number] and [nevts]
    are. *)
Theorem begin_raises_NameError :
  (forall mV noise_files read_temperatures read_power self,
      exists e,
        snd (begin mV noise_files read_temperatures read_power self)
        = Raise e)
  /\ (forall mV,
         begin mV [example_file] false false new_importer
         = ({| self_data := Some {| dim1 := 1; dim2 := 1;
                                    rows := [[[1%Q]]] |};
               self_posix_time := Some [10%Z];
               self_datetime := Some [Datetime64_s 10];
               self_trigger := Some [2%Z];
               self_temperature := None; self_power := None;
               self_station_id := None; self_dtms := None;
               self_run_number := None; self_nevts := None |},
            Raise (NameError "read_temperature"))).
Proof.
  split.
  - intros. apply begin_always_raises.
  - intros mV. reflexivity.
Qed.

(** C3. With [read_power] the attribute [power] is never assigned: the
    call [_read_power_curve(nf_uproot, event_times_file)] binds the event
    times to [val], so that the name of the branch cannot be built and
    the call raises; on a valid file [begin] ends in a TypeError before
    any attribute is assigned. *)
Theorem begin_read_power_raises :
  (forall mV nf times interpolation_times,
      exists e, _read_power_curve mV nf (AArray times) interpolation_times
                = Raise e)
  /\ (forall mV noise_files read_temperatures self,
         self_power (fst (begin mV noise_files read_temperatures true self))
         = self_power self)
  /\ (forall mV,
         begin mV [example_file] false true new_importer
         = (new_importer, Raise TypeError)).
Proof.
  split; [|split].
  - intros. apply read_power_curve_of_array.
  - intros. apply (begin_leaves_unassigned mV noise_files
                     read_temperatures true self).
  - intros mV. reflexivity.
Qed.

(** C8, as stated, fails: the posix time of an event does not combine the
    two fields of its timestamp.  An event at 10 s + 500000000 ns and an
    event at 10 s + 0 ns both get the posix time 10, which is not the
    combined timestamp 10.5 s. *)
Lemma posix_time_drops_nanoseconds :
  self_posix_time
    (fst (begin (1 # 1000) [example_file] false false new_importer))
  = Some [10%Z]
  /\ self_posix_time
       (fst (begin (1 # 1000) [example_file_0ns] false false new_importer))
     = Some [10%Z]
  /\ ~ (inject_Z 10 == combined_timestamp 10 500000000)%Q.
Proof.
  split; [reflexivity|]. split; [reflexivity|].
  intros H. vm_compute in H. discriminate H.
Qed.

(** C8, amended. Whenever [begin] assigns [posix_time], the posix time of
    every event is the first decoded element of its timestamp, the
    seconds (the nanoseconds are not used), in file order and entry order;
    [datetime] is that number of seconds as a calendar time of one-second
    resolution. *)
Theorem posix_time_is_seconds (mV : Q) (noise_files : list noise_file)
    (read_temperatures read_power : bool) (posix_time : list Z) :
  self_posix_time
    (fst (begin mV noise_files read_temperatures read_power new_importer))
  = Some posix_time ->
  posix_time
  = concat (map (fun nf => map seconds (file_entries nf)) noise_files)
  /\ self_datetime
       (fst (begin mV noise_files read_temperatures read_power new_importer))
     = Some (map Datetime64_s posix_time)
  /\ Forall (fun nf => Forall (fun e => fTime e <> []) (file_entries nf))
            noise_files
  /\ (forall e t_s t_ns, fTime e = [t_s; t_ns] -> seconds e = t_s).
Proof.
  unfold begin, bindM, lift.
  destruct (begin_loop mV read_temperatures read_power noise_files
              empty_accumulators) as [acc|] eqn:Hloop; [|discriminate].
  apply begin_loop_posix_times in Hloop. destruct Hloop as [Hp Hne].
  cbn [acc_posix_times empty_accumulators app] in Hp.
  destruct (concatenate3 (acc_data acc)); [|discriminate].
  cbn [set_data].
  destruct (concatenate (acc_posix_times acc)) as [pt|] eqn:Hc;
    [|discriminate].
  cbn [set_posix_time getattr self_posix_time set_datetime].
  assert (pt = concat (acc_posix_times acc)) as Hpt.
  { unfold concatenate in Hc. destruct (acc_posix_times acc);
      [discriminate | now injection Hc as <-]. }
  destruct (concatenate (acc_trigger acc)).
  - cbn [set_trigger]. rewrite load_read_temperature.
    cbn [fst self_posix_time self_datetime].
    intros H; injection H as <-. rewrite Hpt, Hp.
    repeat split; auto.
    intros ent t_s t_ns Hent. unfold seconds. now rewrite Hent.
  - cbn [fst self_posix_time self_datetime].
    intros H; injection H as <-. rewrite Hpt, Hp.
    repeat split; auto.
    intros ent t_s t_ns Hent. unfold seconds. now rewrite Hent.
Qed.

Lemma posix_time_is_seconds_witness :
  [10%Z] = concat (map (fun nf => map seconds (file_entries nf))
                       [example_file])
  /\ self_datetime
       (fst (begin (1 # 1000) [example_file] false false new_importer))
     = Some (map Datetime64_s [10%Z])
  /\ Forall (fun nf => Forall (fun e => fTime e <> []) (file_entries nf))
            [example_file]
  /\ (forall e t_s t_ns, fTime e = [t_s; t_ns] -> seconds e = t_s).
Proof.
  apply (posix_time_is_seconds (1 # 1000) [example_file] false false
           [10%Z]).
  reflexivity.
Defined.

(** ** [run] *)

Lemma randint_0 (nevts : nat) (u : Z) :
  randint 0 (Z.of_nat nevts) u = Ok (u mod (Z.of_nat nevts + 1))%Z.
Proof.
  unfold randint, randrange, randbelow.
  replace (Z.of_nat nevts + 1 - 0)%Z with (Z.of_nat nevts + 1)%Z by lia.
  destruct (Z.ltb_spec 0 (Z.of_nat nevts + 1)); [reflexivity | lia].
Qed.

Lemma randint_0_range (nevts : nat) (u r : Z) :
  randint 0 (Z.of_nat nevts) u = Ok r -> (0 <= r <= Z.of_nat nevts)%Z.
Proof.
  rewrite randint_0. intros H; injection H as <-.
  pose proof (Z.mod_pos_bound u (Z.of_nat nevts + 1)). lia.
Qed.

Lemma randint_0_onto (nevts : nat) (r : Z) :
  (0 <= r <= Z.of_nat nevts)%Z -> randint 0 (Z.of_nat nevts) r = Ok r.
Proof.
  intros Hr. rewrite randint_0. f_equal. apply Z.mod_small. lia.
Qed.

Lemma np_getitem_in_range {A : Type} (d : A) (l : list A) (i : Z) :
  (0 <= i < Z.of_nat (length l))%Z ->
  np_getitem l i = Ok (nth (Z.to_nat i) l d).
Proof.
  intros Hi. unfold np_getitem.
  destruct (Z.ltb_spec i 0); [lia|].
  destruct (Z.leb_spec 0 i); [|lia].
  destruct (Z.ltb_spec i (Z.of_nat (length l))); [|lia].
  cbn [andb].
  destruct (nth_error l (Z.to_nat i)) as [a|] eqn:Hnth.
  - f_equal. symmetry. now apply nth_error_nth.
  - apply nth_error_None in Hnth. lia.
Qed.

Lemma np_getitem_negative {A : Type} (d : A) (l : list A) (i : Z) :
  (- Z.of_nat (length l) <= i < 0)%Z ->
  np_getitem l i = Ok (nth (Z.to_nat (Z.of_nat (length l) + i)) l d).
Proof.
  intros Hi. unfold np_getitem.
  destruct (Z.ltb_spec i 0); [|lia].
  destruct (Z.leb_spec 0 (i + Z.of_nat (length l))); [|lia].
  destruct (Z.ltb_spec (i + Z.of_nat (length l)) (Z.of_nat (length l)));
    [|lia].
  cbn [andb]. rewrite (Z.add_comm i).
  destruct (nth_error l _) as [a|] eqn:Hnth.
  - f_equal. symmetry. now apply nth_error_nth.
  - apply nth_error_None in Hnth. lia.
Qed.

Lemma np_getitem_length {A : Type} (l : list A) :
  np_getitem l (Z.of_nat (length l)) = Raise IndexError.
Proof.
  unfold np_getitem.
  destruct (Z.ltb_spec (Z.of_nat (length l)) 0); [lia|].
  destruct (Z.ltb_spec (Z.of_nat (length l)) (Z.of_nat (length l))); [lia|].
  now rewrite andb_false_r.
Qed.

Lemma Qplus_0_r_eq (x : Q) : (x + 0)%Q = x.
Proof.
  destruct x as [a b]. unfold Qplus. cbn [Qnum Qden].
  rewrite Z.mul_1_r, Z.mul_0_l, Z.add_0_r, Pos.mul_1_r. reflexivity.
Qed.

Lemma zip_with_zeros (w : list Q) :
  zip_with Qplus w (repeat 0%Q (length w)) = w.
Proof.
  induction w as [|x w IH]; [reflexivity|].
  simpl. now rewrite Qplus_0_r_eq, IH.
Qed.

Lemma length_scale (mV : Q) (w : list Q) : length (scale mV w) = length w.
Proof. apply length_map. Qed.

(** In a well-formed array the waveform of an event and channel in range
    has [dim1]-many siblings and [dim2] samples. *)
Lemma wf_event (data : ndarray3) (i : nat) :
  wf_ndarray3 data -> (i < length (rows data))%nat ->
  length (nth i (rows data) []) = dim1 data
  /\ Forall (fun w => length w = dim2 data) (nth i (rows data) []).
Proof.
  intros Hwf Hi. unfold wf_ndarray3 in Hwf. rewrite Forall_forall in Hwf.
  apply Hwf. now apply nth_In.
Qed.

Lemma wf_waveform (data : ndarray3) (i j : nat) :
  wf_ndarray3 data -> (i < length (rows data))%nat -> (j < dim1 data)%nat ->
  length (nth j (nth i (rows data) []) []) = dim2 data.
Proof.
  intros Hwf Hi Hj. destruct (wf_event data i Hwf Hi) as [Hlen Hall].
  rewrite Forall_forall in Hall. apply Hall. apply nth_In. lia.
Qed.

Section Run.

Variable mV : Q.

(** The injection itself, for an event index and a channel index that are
    in range (the channel index possibly counted from the end). *)
Lemma add_noise_in_range (data : ndarray3) (channel : Channel)
    (noise_event channel_id : Z) :
  wf_ndarray3 data ->
  length (get_trace channel) = dim2 data ->
  (0 <= noise_event < Z.of_nat (length (rows data)))%Z ->
  (0 <= channel_id < Z.of_nat (dim1 data))%Z ->
  add_noise mV data noise_event channel_id channel
  = Ok (set_trace channel
          (zip_with Qplus (scale mV (waveform data noise_event channel_id))
             (get_trace channel))
          (get_sampling_rate channel)).
Proof.
  intros Hwf Hlen Hev Hch. unfold add_noise.
  rewrite (np_getitem_in_range [] _ _ Hev). cbn [bind].
  destruct (wf_event data (Z.to_nat noise_event) Hwf) as [Hl _]; [lia|].
  rewrite (np_getitem_in_range []) by (rewrite Hl; lia). cbn [bind].
  unfold iadd. rewrite length_scale.
  fold (waveform data noise_event channel_id).
  assert (length (waveform data noise_event channel_id) = dim2 data) as Hw
    by (apply wf_waveform; auto; lia).
  rewrite Hw, Hlen, Nat.eqb_refl. reflexivity.
Qed.

End Run.

Section RunLemmas.

Variable mV : Q.

(** The same, for a channel index counted from the end. *)
Lemma add_noise_negative (data : ndarray3) (channel : Channel)
    (noise_event channel_id : Z) :
  wf_ndarray3 data ->
  length (get_trace channel) = dim2 data ->
  (0 <= noise_event < Z.of_nat (length (rows data)))%Z ->
  (- Z.of_nat (dim1 data) <= channel_id < 0)%Z ->
  add_noise mV data noise_event channel_id channel
  = Ok (set_trace channel
          (zip_with Qplus
             (scale mV (waveform data noise_event
                          (Z.of_nat (dim1 data) + channel_id)))
             (get_trace channel))
          (get_sampling_rate channel)).
Proof.
  intros Hwf Hlen Hev Hch. unfold add_noise.
  rewrite (np_getitem_in_range [] _ _ Hev). cbn [bind].
  destruct (wf_event data (Z.to_nat noise_event) Hwf) as [Hl _]; [lia|].
  rewrite (np_getitem_negative []) by (rewrite Hl; lia). cbn [bind].
  rewrite Hl.
  unfold iadd. rewrite length_scale.
  fold (waveform data noise_event (Z.of_nat (dim1 data) + channel_id)).
  assert (length (waveform data noise_event
                    (Z.of_nat (dim1 data) + channel_id)) = dim2 data) as Hw
    by (apply wf_waveform; auto; lia).
  rewrite Hw, Hlen, Nat.eqb_refl. reflexivity.
Qed.

(** [run_channel] once the attributes are known to be assigned. *)
Lemma run_channel_assigned (self : importer) (data : ndarray3) (nevts : nat)
    (u : Z) (channel : Channel) :
  self_nevts self = Some nevts ->
  self_data self = Some data ->
  run_channel mV self u channel
  = match check_channel (Z.of_nat (dim1 data)) (get_id channel) with
    | Raise e => ([], Raise e)
    | Ok (channel_id, warned) =>
        if negb (dim2 data =? length (get_trace channel))%nat
        then ((warned ++ [Warning_mismatch (dim2 data)
                            (length (get_trace channel))])%list,
              Ok channel)
        else (warned,
              add_noise mV data (u mod (Z.of_nat nevts + 1))%Z channel_id
                channel)
    end.
Proof.
  intros Hn Hd. unfold run_channel. rewrite Hn, randint_0, Hd. reflexivity.
Qed.

Lemma check_channel_ok (nchans channel_id : Z) :
  (channel_id <= nchans - 1)%Z ->
  check_channel nchans channel_id = Ok (channel_id, []).
Proof.
  intros H. unfold check_channel.
  destruct (Z.gtb_spec channel_id (nchans - 1)); [lia | reflexivity].
Qed.

(** The warning of the channel check is called with keywords that the
    logger does not take. *)
Lemma check_channel_remap (nchans channel_id : Z) :
  (0 < nchans <= channel_id)%Z ->
  check_channel nchans channel_id = Raise TypeError.
Proof.
  intros H. unfold check_channel.
  destruct (Z.gtb_spec channel_id (nchans - 1)); [|lia].
  destruct (Z.eqb_spec nchans 0); [lia | reflexivity].
Qed.

End RunLemmas.

(** ** The claims on [run] *)

(** C4. The event index of [run] is drawn from the closed range
    [0, nevts]: for every raw draw the index that [run] uses lies in it,
    and every number of it is used for some draw, [nevts] included.  The
    access [data[noise_event]] fails exactly when the index is [nevts],
    one past the last event; for a channel that reaches the access (id
    at most that of the last channel, trace of the length of the noise)
    the call then ends in an IndexError. *)
Theorem randint_reaches_one_past_the_end (mV : Q) (self : importer)
    (data : ndarray3) (nevts : nat) (channel : Channel) :
  self_nevts self = Some nevts ->
  self_data self = Some data ->
  length (rows data) = nevts ->
  length (get_trace channel) = dim2 data ->
  (get_id channel <= Z.of_nat (dim1 data) - 1)%Z ->
  (forall u, exists noise_event,
       randint 0 (Z.of_nat nevts) u = Ok noise_event
       /\ (0 <= noise_event <= Z.of_nat nevts)%Z
       /\ run_channel mV self u channel
          = ([], add_noise mV data noise_event (get_id channel) channel))
  /\ (forall noise_event, (0 <= noise_event <= Z.of_nat nevts)%Z ->
        randint 0 (Z.of_nat nevts) noise_event = Ok noise_event)
  /\ (forall noise_event, (0 <= noise_event <= Z.of_nat nevts)%Z ->
        (np_getitem (rows data) noise_event = Raise IndexError
         <-> noise_event = Z.of_nat nevts))
  /\ (forall u, randint 0 (Z.of_nat nevts) u = Ok (Z.of_nat nevts) ->
        run_channel mV self u channel = ([], Raise IndexError))
  /\ run_channel mV self (Z.of_nat nevts) channel = ([], Raise IndexError).
Proof.
  intros Hn Hd Hlen Htr Hid.
  assert (forall u,
             run_channel mV self u channel
             = ([], add_noise mV data (u mod (Z.of_nat nevts + 1))%Z
                      (get_id channel) channel)) as Hrun.
  { intros u.
    rewrite (run_channel_assigned mV self data nevts u channel Hn Hd).
    rewrite check_channel_ok by exact Hid.
    rewrite Htr, Nat.eqb_refl. reflexivity. }
  assert (forall channel_id,
             add_noise mV data (Z.of_nat nevts) channel_id channel
             = Raise IndexError) as Hpast.
  { intros channel_id. unfold add_noise. rewrite <- Hlen.
    now rewrite np_getitem_length. }
  split; [|split; [|split; [|split]]].
  - intros u. exists (u mod (Z.of_nat nevts + 1))%Z.
    split; [apply randint_0|]. split; [|apply Hrun].
    pose proof (Z.mod_pos_bound u (Z.of_nat nevts + 1)). lia.
  - intros noise_event Hr. now apply randint_0_onto.
  - intros noise_event Hr. split.
    + intros Hraise.
      destruct (Z.eq_dec noise_event (Z.of_nat nevts)) as [|Hneq];
        [assumption|].
      rewrite (np_getitem_in_range []) in Hraise by lia. discriminate.
    + intros ->. rewrite <- Hlen. apply np_getitem_length.
  - intros u Hu. rewrite randint_0 in Hu. injection Hu as Hu.
    rewrite Hrun, Hu. now rewrite Hpast.
  - rewrite Hrun, Z.mod_small by lia. now rewrite Hpast.
Qed.

Lemma randint_reaches_one_past_the_end_witness :
  run_channel (1 # 1000) (corpus_of example_data) 2
    (example_channel 0 [0; 0]%Q)
  = ([], Raise IndexError).
Proof.
  refine (proj2 (proj2 (proj2 (proj2
    (randint_reaches_one_past_the_end (1 # 1000) (corpus_of example_data)
       example_data 2 (example_channel 0 [0; 0]%Q)
       eq_refl eq_refl eq_refl eq_refl _))))).
  vm_compute. discriminate.
Defined.

(** C5, as stated, fails: a channel whose trace has another length than
    the noise and whose id is above the last channel of the corpus is not
    skipped with one warning.  With 4 channels of 512 samples, channel 6
    and a trace of 600 samples, [run] ends in a TypeError, raised by the
    warning of the channel check, and has logged nothing. *)
Lemma mismatch_after_remap_raises :
  dim2 data_512 <> length (get_trace (example_channel 6 (repeat 0%Q 600)))
  /\ run_channel (1 # 1000) (corpus_of data_512) 0
       (example_channel 6 (repeat 0%Q 600))
     = ([], Raise TypeError)
  /\ run (1 # 1000) (corpus_of data_512) (fun _ => 0%Z)
       [example_channel 6 (repeat 0%Q 600);
        example_channel 1 (repeat 0%Q 600)]
     = ([example_channel 6 (repeat 0%Q 600);
         example_channel 1 (repeat 0%Q 600)], [], Some TypeError).
Proof.
  split; [vm_compute; discriminate|].
  split; vm_compute; reflexivity.
Qed.

(** C5, amended. For a channel whose id is at most that of the last
    channel of the corpus and whose trace has another length than the
    noise, [run] emits exactly one warning, the one of the mismatch,
    leaves the channel as it was, raises no exception, and goes on with
    the remaining channels. *)
Theorem mismatch_leaves_trace (mV : Q) (self : importer) (data : ndarray3)
    (nevts : nat) (channel : Channel) :
  self_nevts self = Some nevts ->
  self_data self = Some data ->
  dim2 data <> length (get_trace channel) ->
  (get_id channel <= Z.of_nat (dim1 data) - 1)%Z ->
  let warned :=
    [Warning_mismatch (dim2 data) (length (get_trace channel))] in
  (forall u, run_channel mV self u channel = (warned, Ok channel))
  /\ (forall rng k rest,
         run_from mV self rng k (channel :: rest)
         = (channel :: fst (fst (run_from mV self rng (S k) rest)),
            (warned ++ snd (fst (run_from mV self rng (S k) rest)))%list,
            snd (run_from mV self rng (S k) rest))).
Proof.
  intros Hn Hd Hlen Hid warned.
  assert (forall u, run_channel mV self u channel = (warned, Ok channel))
    as Hrun.
  { intros u.
    rewrite (run_channel_assigned mV self data nevts u channel Hn Hd).
    rewrite check_channel_ok by exact Hid.
    destruct (Nat.eqb_spec (dim2 data) (length (get_trace channel)));
      [contradiction | reflexivity]. }
  split; [exact Hrun|].
  intros rng k rest. cbn [run_from]. rewrite Hrun.
  destruct (run_from mV self rng (S k) rest) as [[rest' warned'] e].
  reflexivity.
Qed.

Lemma mismatch_leaves_trace_witness :
  run_channel (1 # 1000) (corpus_of data_512) 0
    (example_channel 1 (repeat 0%Q 600))
  = ([Warning_mismatch 512 600], Ok (example_channel 1 (repeat 0%Q 600))).
Proof.
  refine (proj1 (mismatch_leaves_trace (1 # 1000) (corpus_of data_512)
                   data_512 1 (example_channel 1 (repeat 0%Q 600))
                   eq_refl eq_refl _ _) 0%Z).
  - vm_compute. discriminate.
  - vm_compute. discriminate.
Defined.

(** C6. For a channel whose id is one of the channels of the corpus and
    whose trace has the length of the noise, with the drawn event in
    range, the new trace is the element-wise sum of the waveform
    [data[noise_event][channel_id]] times [units.mV] and the old trace,
    at the sampling rate the channel had, and nothing is logged; on a
    trace of zeros it is the scaled waveform itself.  A channel whose id
    has to be reduced first does not get there: with 4 channels, channel
    6 and a trace of the length of the noise, [run] ends in a TypeError,
    raised by the warning of the channel check, and adds nothing. *)
Theorem run_channel_adds_scaled_noise :
  (forall (mV : Q) (self : importer) (data : ndarray3) (nevts : nat)
          (u noise_event : Z) (channel : Channel),
      self_nevts self = Some nevts ->
      self_data self = Some data ->
      wf_ndarray3 data ->
      length (get_trace channel) = dim2 data ->
      randint 0 (Z.of_nat nevts) u = Ok noise_event ->
      (noise_event < Z.of_nat (length (rows data)))%Z ->
      (0 <= get_id channel < Z.of_nat (dim1 data))%Z ->
      let noise_trace :=
        scale mV (waveform data noise_event (get_id channel)) in
      run_channel mV self u channel
      = ([], Ok (set_trace channel
                   (zip_with Qplus noise_trace (get_trace channel))
                   (get_sampling_rate channel)))
      /\ length noise_trace = length (get_trace channel)
      /\ (get_trace channel = repeat 0%Q (dim2 data) ->
          run_channel mV self u channel
          = ([], Ok (set_trace channel noise_trace
                       (get_sampling_rate channel)))))
  /\ run_channel (1 # 1000) (corpus_of example_data) 1
       (example_channel 6 [0; 0]%Q)
     = ([], Raise TypeError).
Proof.
  split; [|vm_compute; reflexivity].
  intros mV self data nevts u noise_event channel
    Hn Hd Hwf Hlen Hr Hev Hid noise_trace.
  pose proof (randint_0_range nevts u noise_event Hr) as Hrange.
  rewrite randint_0 in Hr. injection Hr as Hr.
  assert (run_channel mV self u channel
          = ([], Ok (set_trace channel
                       (zip_with Qplus noise_trace (get_trace channel))
                       (get_sampling_rate channel)))) as Hrun.
  { rewrite (run_channel_assigned mV self data nevts u channel Hn Hd).
    rewrite check_channel_ok by lia.
    rewrite Hlen, Nat.eqb_refl. cbn [negb]. rewrite Hr. f_equal.
    apply add_noise_in_range; auto. lia. }
  assert (length noise_trace = length (get_trace channel)) as Hnl.
  { unfold noise_trace. rewrite length_scale, Hlen.
    apply wf_waveform; auto; lia. }
  split; [exact Hrun|]. split; [exact Hnl|].
  intros Hzero. rewrite Hrun. do 3 f_equal.
  rewrite Hzero, <- Hlen, <- Hnl. apply zip_with_zeros.
Qed.

Lemma run_channel_adds_scaled_noise_witness :
  run_channel (1 # 1000) (corpus_of example_data) 1
    (example_channel 2 [0; 0]%Q)
  = ([], Ok (set_trace (example_channel 2 [0; 0]%Q)
               (zip_with Qplus
                  (scale (1 # 1000) (waveform example_data 1 2))
                  [0; 0]%Q) 2%Q)).
Proof.
  refine (proj1 (proj1 run_channel_adds_scaled_noise (1 # 1000)%Q
                   (corpus_of example_data) example_data 2%nat 1%Z 1%Z
                   (example_channel 2 [0; 0]%Q)
                   eq_refl eq_refl _ eq_refl eq_refl _ _)).
  - repeat constructor.
  - reflexivity.
  - vm_compute. split; [discriminate | reflexivity].
Defined.

(** C7. A channel id that is at least the number of channels of the
    corpus is reduced modulo that number, but the warning that follows is
    called with the keywords [ch_orig], [n_chan] and [ch_new], which the
    logger does not take: the call raises a TypeError.  No warning is
    emitted, no noise is added, and [run] ends there, leaving this
    channel and the following ones as they were. *)
Theorem remap_warning_raises (mV : Q) (self : importer) (data : ndarray3)
    (nevts : nat) (channel : Channel) :
  self_nevts self = Some nevts ->
  self_data self = Some data ->
  (0 < Z.of_nat (dim1 data) <= get_id channel)%Z ->
  logger_warning
    (Warning_channel_not_in_file (get_id channel) (Z.of_nat (dim1 data))
       (get_id channel mod Z.of_nat (dim1 data))%Z)
    ["ch_orig"; "n_chan"; "ch_new"]%string
  = Raise TypeError
  /\ (forall u, run_channel mV self u channel = ([], Raise TypeError))
  /\ (forall rng rest,
         run mV self rng (channel :: rest)
         = (channel :: rest, [], Some TypeError)).
Proof.
  intros Hn Hd Hid.
  assert (forall u, run_channel mV self u channel = ([], Raise TypeError))
    as Hrun.
  { intros u.
    rewrite (run_channel_assigned mV self data nevts u channel Hn Hd).
    now rewrite check_channel_remap. }
  split; [reflexivity|]. split; [exact Hrun|].
  intros rng rest. unfold run. cbn [run_from]. now rewrite Hrun.
Qed.

Lemma remap_warning_raises_witness :
  run (1 # 1000) (corpus_of example_data) (fun _ => 1%Z)
    [example_channel 6 [0; 0]%Q; example_channel 0 [0; 0]%Q]
  = ([example_channel 6 [0; 0]%Q; example_channel 0 [0; 0]%Q], [],
     Some TypeError).
Proof.
  refine (proj2 (proj2 (remap_warning_raises (1 # 1000)
                          (corpus_of example_data) example_data 2
                          (example_channel 6 [0; 0]%Q)
                          eq_refl eq_refl _))
            (fun _ => 1%Z) [example_channel 0 [0; 0]%Q]).
  vm_compute. split; [reflexivity | discriminate].
Defined.

(** C10. A negative channel id of magnitude at most the number of channels
    passes the channel check unchanged: no warning is emitted and no
    remainder is taken.  With a trace of the length of the noise the id
    selects the channel counted from the end: the noise added is the
    waveform of channel [nchans + id]. *)
Theorem negative_id_counts_from_end (mV : Q) (self : importer)
    (data : ndarray3) (nevts : nat) (u : Z) (channel : Channel) :
  self_nevts self = Some nevts ->
  self_data self = Some data ->
  (- Z.of_nat (dim1 data) <= get_id channel < 0)%Z ->
  length (get_trace channel) = dim2 data ->
  check_channel (Z.of_nat (dim1 data)) (get_id channel)
  = Ok (get_id channel, [])
  /\ fst (run_channel mV self u channel) = []
  /\ (wf_ndarray3 data ->
      forall noise_event,
        randint 0 (Z.of_nat nevts) u = Ok noise_event ->
        (noise_event < Z.of_nat (length (rows data)))%Z ->
        run_channel mV self u channel
        = ([],
           Ok (set_trace channel
                 (zip_with Qplus
                    (scale mV (waveform data noise_event
                                 (Z.of_nat (dim1 data) + get_id channel)))
                    (get_trace channel))
                 (get_sampling_rate channel)))).
Proof.
  intros Hn Hd Hid Hlen.
  assert (check_channel (Z.of_nat (dim1 data)) (get_id channel)
          = Ok (get_id channel, [])) as Hcheck.
  { unfold check_channel.
    destruct (Z.gtb_spec (get_id channel) (Z.of_nat (dim1 data) - 1));
      [lia | reflexivity]. }
  assert (run_channel mV self u channel
          = ([], add_noise mV data (u mod (Z.of_nat nevts + 1))%Z
                   (get_id channel) channel)) as Hrun.
  { rewrite (run_channel_assigned mV self data nevts u channel Hn Hd).
    rewrite Hcheck, Hlen, Nat.eqb_refl. reflexivity. }
  split; [exact Hcheck|]. split; [now rewrite Hrun|].
  intros Hwf noise_event Hr Hev. rewrite Hrun. f_equal.
  pose proof (randint_0_range nevts u noise_event Hr).
  rewrite randint_0 in Hr. injection Hr as ->.
  apply add_noise_negative; auto. lia.
Qed.

Lemma negative_id_counts_from_end_witness :
  run_channel (1 # 1000) (corpus_of example_data) 0
    (example_channel (-1) [0; 0]%Q)
  = ([],
     Ok (set_trace (example_channel (-1) [0; 0]%Q)
           (zip_with Qplus (scale (1 # 1000) (waveform example_data 0 3))
              [0; 0]%Q) 2%Q)).
Proof.
  refine (proj2 (proj2 (negative_id_counts_from_end (1 # 1000)
                   (corpus_of example_data) example_data 2 0
                   (example_channel (-1) [0; 0]%Q)
                   eq_refl eq_refl _ eq_refl)) _ 0%Z eq_refl _).
  - vm_compute. split; [discriminate | reflexivity].
  - repeat constructor.
  - reflexivity.
Defined.

(** ** The interpolator *)

Lemma nondecreasing_tail (a : Z) (x : list Z) :
  nondecreasing (a :: x) -> nondecreasing x.
Proof. destruct x as [|b r]; [trivial | intros [_ H]; exact H]. Qed.



(** The constructor leaves a sorted series as it is, repeated times
    included. *)
Lemma sort_samples_nondecreasing (x : list Z) :
  forall y : list float, length x = length y -> nondecreasing x ->
  sort_samples (combine x y) = combine x y.
Proof.
  induction x as [|a r IH]; intros y Hlen Hnd; [reflexivity|].
  destruct y as [|b s]; [discriminate|].
  cbn [combine sort_samples fold_right].
  change (fold_right insert_sample [] (combine r s))
    with (sort_samples (combine r s)).
  rewrite IH; [|simpl in Hlen; lia | exact (nondecreasing_tail a r Hnd)].
  destruct r as [|a' r]; [reflexivity|].
  destruct s as [|b' s]; [discriminate|].
  destruct Hnd as [Haa _]. cbn [combine insert_sample fst].
  destruct (Z.leb_spec a a'); [reflexivity | lia].
Qed.

Lemma map_fst_combine (x : list Z) :
  forall y : list float, length x = length y -> map fst (combine x y) = x.
Proof.
  induction x as [|a r IH]; intros [|b s] Hlen;
    try reflexivity; try discriminate.
  simpl. f_equal. apply IH. simpl in Hlen. lia.
Qed.

Lemma map_snd_combine (x : list Z) :
  forall y : list float, length x = length y -> map snd (combine x y) = y.
Proof.
  induction x as [|a r IH]; intros [|b s] Hlen;
    try reflexivity; try discriminate.
  simpl. f_equal. apply IH. simpl in Hlen. lia.
Qed.

Lemma interp1d_nondecreasing (x : list Z) (y : list float)
    (fill_value : float * float) :
  length x = length y -> 2 <= length x -> nondecreasing x ->
  interp1d x y fill_value
  = Ok (series_interpolator x y (fst fill_value) (snd fill_value)).
Proof.
  intros Hlen H2 Hnd. unfold interp1d.
  rewrite Hlen, Nat.eqb_refl. cbn [negb]. rewrite <- Hlen.
  destruct (Nat.ltb_spec (length x) 2); [lia|].
  rewrite sort_samples_nondecreasing, map_fst_combine, map_snd_combine;
    auto.
Qed.





















Section Interpolation.

Variables (x : list Z) (y : list float) (below above : float).

Hypothesis Hnd : nondecreasing x.





End Interpolation.

Lemma getitem_first_nth {A : Type} (d : A) (l : list A) :
  l <> [] -> getitem_first l = Ok (nth 0 l d).
Proof. destruct l; [congruence | reflexivity]. Qed.

Lemma getitem_last_last {A : Type} (d : A) (l : list A) :
  l <> [] -> getitem_last l = Ok (last l d).
Proof.
  intros Hl. destruct (exists_last Hl) as [l' [a ->]].
  unfold getitem_last. now rewrite rev_app_distr, last_last.
Qed.

(** What [_read_temperature_curve] returns for given interpolation times:
    one value of the interpolator per time. *)
Lemma read_temperature_curve_interpolates (nf : noise_file)
    (nt : temperature_tree) (time times : list Z) (f : interp1d_obj) :
  TemperatureTree nf = Some nt ->
  ak_column0 (Temperature_fTime nt) = Ok time ->
  interp1d time (Temperature_fTemp nt)
    (nth 0 (Temperature_fTemp nt) 0%float,
     last (Temperature_fTemp nt) 0%float)
  = Ok f ->
  _read_temperature_curve nf (Some times)
  = Ok (times, map (interp1d_call f) times).
Proof.
  intros Hnt Htime Hf. unfold _read_temperature_curve.
  rewrite Hnt. cbn [getitem_key bind]. rewrite Htime. cbn [bind].
  assert (Temperature_fTemp nt <> []) as Hne.
  { intros Hnil. rewrite Hnil in Hf. unfold interp1d in Hf.
    destruct time as [|a r]; simpl in Hf; discriminate. }
  rewrite (getitem_first_nth 0%float _ Hne),
    (getitem_last_last 0%float _ Hne).
  cbn [bind]. rewrite Hf. reflexivity.
Qed.

(** ** The claim on the interpolator *)




(** * Further properties *)

(** ** The bunches of [begin] *)

Lemma length_slice {A : Type} (a b : nat) (l : list A) :
  length (slice a b l) = Nat.min (b - a) (length l - a).
Proof. unfold slice. now rewrite length_firstn, length_skipn. Qed.

Lemma length_arange (stop step : nat) :
  length (arange stop step) = ((stop + step - 1) / step)%nat.
Proof. unfold arange. now rewrite length_map, length_seq. Qed.

Lemma nth_arange (stop step i : nat) :
  i < length (arange stop step) -> nth i (arange stop step) 0 = i * step.
Proof.
  rewrite length_arange. intros Hi. unfold arange.
  set (m := ((stop + step - 1) / step)%nat) in *.
  change (nth i (map (fun k => k * step) (seq 0 m)) ((fun k => k * step) 0)
          = i * step).
  rewrite map_nth, seq_nth by exact Hi. reflexivity.
Qed.

Lemma nth_tl (l : list nat) (i : nat) : nth i (tl l) 0 = nth (S i) l 0.
Proof. destruct l; [now destruct i | reflexivity]. Qed.

(** The number of bunches and the bounds of each of them. *)
Lemma length_read_bunched (mV : Q) (nt : calib_tree) :
  length (read_bunched mV nt) = ((num_entries nt + 999) / 1000)%nat.
Proof.
  unfold read_bunched. rewrite length_map, length_seq, removelast_last.
  rewrite length_arange. f_equal. lia.
Qed.

(** X1. The bunched read of a field of [n] entries makes
    [ceil(n / 1000)] reads, and the read number [i] holds
    [min(1000, n - 1000 i)] entries: 1000 for all but the last, which
    holds the remaining ones, at least one. *)
Theorem read_bunched_sizes (mV : Q) (nt : calib_tree) :
  length (read_bunched mV nt) = ((num_entries nt + 999) / 1000)%nat
  /\ forall i d, i < length (read_bunched mV nt) ->
       length (rows (nth i (read_bunched mV nt) d))
       = Nat.min 1000 (num_entries nt - i * 1000)
       /\ 1 <= length (rows (nth i (read_bunched mV nt) d)) <= 1000.
Proof.
  split; [apply length_read_bunched|].
  intros i d Hi. pose proof Hi as Hm. rewrite length_read_bunched in Hm.
  assert (length (rows (nth i (read_bunched mV nt) d))
          = Nat.min 1000 (num_entries nt - i * 1000)) as Hlen.
  { unfold read_bunched in *. rewrite removelast_last in *.
    rewrite length_map, length_seq in Hi.
    set (f := fun i => scale3 mV (AmpOutData_array nt
                 (nth i (arange (num_entries nt) 1000) 0)
                 (nth i (tl (arange (num_entries nt) 1000
                             ++ [num_entries nt])) 0))).
    rewrite (nth_indep _ d (f 0)) by (now rewrite length_map, length_seq).
    rewrite (map_nth f), seq_nth by exact Hi. unfold f.
    cbn [rows scale3 AmpOutData_array Nat.add].
    rewrite !length_map, length_slice, nth_tl.
    rewrite nth_arange by exact Hi.
    fold (num_entries nt).
    assert (1000 * ((num_entries nt + 999) / 1000) <= num_entries nt + 999)
      by apply Nat.Div0.mul_div_le.
    assert (num_entries nt + 999
            < 1000 * S ((num_entries nt + 999) / 1000))
      by (apply Nat.mul_succ_div_gt; lia).
    assert (length (arange (num_entries nt) 1000)
            = (num_entries nt + 999) / 1000) as Ha
      by (rewrite length_arange; f_equal; lia).
    rewrite Ha in Hi.
    destruct (Nat.eq_dec (S i) ((num_entries nt + 999) / 1000)) as [He|He].
    - rewrite app_nth2 by lia. rewrite Ha.
      replace (S i - (num_entries nt + 999) / 1000) with 0 by lia.
      cbn [nth]. lia.
    - rewrite app_nth1 by lia.
      rewrite nth_arange by lia. lia. }
  split; [exact Hlen|].
  assert (1000 * ((num_entries nt + 999) / 1000) <= num_entries nt + 999)
    by apply Nat.Div0.mul_div_le.
  lia.
Qed.

(** The arrays one file appends to [data]: the rows of the file, in
    order, raw or scaled according to the number of entries. *)
Lemma read_AmpOutData_rows (mV : Q) (nt : calib_tree) :
  concat (map rows (read_AmpOutData mV nt))
  = if (num_entries nt <? 1000)%nat then map fData (entries nt)
    else map (map (scale mV)) (map fData (entries nt)).
Proof.
  unfold read_AmpOutData. destruct (num_entries nt <? 1000)%nat.
  - apply read_single_rows.
  - apply read_bunched_rows.
Qed.

Lemma read_AmpOutData_dims (mV : Q) (nt : calib_tree) :
  Forall (fun a => dim1 a = fData_dim1 nt /\ dim2 a = fData_dim2 nt)
         (read_AmpOutData mV nt).
Proof.
  unfold read_AmpOutData. destruct (num_entries nt <? 1000)%nat.
  - repeat constructor.
  - apply read_bunched_dims.
Qed.


(** X2. The reads of the bunches cover the entries of the field once and
    in order: concatenated, they are the full read times [units.mV]; and
    whatever the branch taken, the arrays appended for a file hold one row
    per entry and have the shape of the field. *)
Theorem bunched_read_covers_entries (mV : Q) (nt : calib_tree) :
  concat (map rows (read_bunched mV nt))
  = rows (scale3 mV (AmpOutData_full nt))
  /\ length (concat (map rows (read_AmpOutData mV nt))) = num_entries nt
  /\ Forall (fun a => dim1 a = fData_dim1 nt /\ dim2 a = fData_dim2 nt)
            (read_AmpOutData mV nt).
Proof.
  split; [apply read_bunched_rows|]. split; [|apply read_AmpOutData_dims].
  rewrite read_AmpOutData_rows.
  destruct (num_entries nt <? 1000)%nat; now rewrite !length_map.
Qed.

(** ** What [begin] assigns *)

Section BeginMore.

Variable mV : Q.

Lemma begin_file_accumulators (rt rp : bool) (nf : noise_file)
    (acc acc' : accumulators) :
  begin_file mV rt rp nf acc = Ok acc' ->
  acc_data acc' = (acc_data acc ++ file_arrays mV nf)%list
  /\ acc_trigger acc'
     = (acc_trigger acc ++ [map trigger_byte (file_entries nf)])%list
  /\ acc_posix_times acc'
     = (acc_posix_times acc ++ [map seconds (file_entries nf)])%list
  /\ CalibTree nf <> None.
Proof.
  unfold begin_file, file_entries, file_arrays.
  destruct (CalibTree nf) as [nt|]; [|discriminate]. cbn [getitem_key bind].
  destruct (np_column0 (map fTrgInfo (entries nt))) as [trg|] eqn:Htr;
    [|discriminate].
  cbn [bind].
  destruct (np_column0 (map fTime (entries nt))) as [times|] eqn:Ht;
    [|discriminate].
  cbn [bind].
  apply np_column0_ok in Ht. destruct Ht as [-> _].
  apply np_column0_ok in Htr. destruct Htr as [-> _].
  destruct (if rt then _ else _); [|discriminate]. cbn [bind].
  destruct (if rp then _ else _); [|discriminate]. cbn [bind].
  intros H; injection H as <-.
  cbn [acc_data acc_trigger acc_posix_times].
  rewrite !map_map. repeat split. discriminate.
Qed.

Lemma begin_loop_accumulators (rt rp : bool) (noise_files : list noise_file) :
  forall acc acc',
  begin_loop mV rt rp noise_files acc = Ok acc' ->
  acc_data acc' = (acc_data acc ++ flat_map (file_arrays mV) noise_files)%list
  /\ acc_trigger acc'
     = (acc_trigger acc
        ++ map (fun nf => map trigger_byte (file_entries nf)) noise_files)%list
  /\ acc_posix_times acc'
     = (acc_posix_times acc
        ++ map (fun nf => map seconds (file_entries nf)) noise_files)%list
  /\ Forall (fun nf => CalibTree nf <> None) noise_files.
Proof.
  induction noise_files as [|nf rest IH]; intros acc acc' H.
  - injection H as <-. rewrite !app_nil_r. auto.
  - cbn [begin_loop] in H.
    destruct (begin_file mV rt rp nf acc) as [acc1|] eqn:Hf; [|discriminate].
    cbn [bind] in H. apply begin_file_accumulators in Hf.
    destruct Hf as [Hd [Ht [Hp Hc]]].
    apply IH in H. destruct H as [Hd' [Ht' [Hp' Hc']]].
    rewrite Hd', Ht', Hp', Hd, Ht, Hp. cbn [flat_map map].
    rewrite <- !app_assoc. repeat split; auto.
Qed.

Lemma rows_file_arrays (noise_files : list noise_file) :
  concat (map rows (flat_map (file_arrays mV) noise_files))
  = concat (map (file_rows mV) noise_files).
Proof.
  induction noise_files as [|nf rest IH]; [reflexivity|].
  cbn [flat_map map concat]. rewrite map_app, concat_app, IH. f_equal.
  unfold file_arrays, file_rows.
  destruct (CalibTree nf) as [nt|]; [|reflexivity].
  apply read_AmpOutData_rows.
Qed.

Lemma length_file_rows (noise_files : list noise_file) :
  length (concat (map (file_rows mV) noise_files))
  = total_entries noise_files.
Proof.
  unfold total_entries.
  induction noise_files as [|nf rest IH]; [reflexivity|].
  cbn [map concat list_sum]. rewrite length_app, IH. f_equal.
  unfold file_rows, file_entries.
  destruct (CalibTree nf) as [nt|]; [|reflexivity].
  destruct (num_entries nt <? 1000)%nat; now rewrite !length_map.
Qed.

Lemma length_concat_per_entry {B : Type} (g : calib_entry -> B)
    (noise_files : list noise_file) :
  length (concat (map (fun nf => map g (file_entries nf)) noise_files))
  = total_entries noise_files.
Proof.
  unfold total_entries.
  induction noise_files as [|nf rest IH]; [reflexivity|].
  cbn [map concat list_sum]. now rewrite length_app, IH, length_map.
Qed.

Lemma concatenate3_rows (arrays : list ndarray3) (a : ndarray3) :
  concatenate3 arrays = Ok a ->
  rows a = concat (map rows arrays) /\ arrays <> [].
Proof.
  unfold concatenate3. destruct arrays as [|h t]; [discriminate|].
  destruct (forallb _ _); [|discriminate].
  intros H; injection H as <-. split; [reflexivity | discriminate].
Qed.

Lemma concatenate_nonempty {A : Type} (arrays : list (list A)) :
  arrays <> [] -> concatenate arrays = Ok (concat arrays).
Proof. destruct arrays; [congruence | reflexivity]. Qed.

End BeginMore.

(** X3. [begin] has two outcomes.  Either it assigns nothing, or it
    assigns exactly [data], [posix_time], [datetime] and [trigger] and
    ends in the NameError of [read_temperature]: then the file list is not
    empty, the four arrays hold one element per event of the files, in
    file order and entry order, and the other attributes are as
    before. *)
Theorem begin_outcomes (mV : Q) (noise_files : list noise_file)
    (read_temperatures read_power : bool) (self : importer) :
  let self' :=
    fst (begin mV noise_files read_temperatures read_power self) in
  let times :=
    concat (map (fun nf => map seconds (file_entries nf)) noise_files) in
  let triggers :=
    concat (map (fun nf => map trigger_byte (file_entries nf))
                noise_files) in
  self' = self
  \/ (snd (begin mV noise_files read_temperatures read_power self)
      = Raise (NameError "read_temperature")
      /\ noise_files <> []
      /\ (exists data,
             self_data self' = Some data
             /\ rows data = concat (map (file_rows mV) noise_files)
             /\ length (rows data) = total_entries noise_files)
      /\ self_posix_time self' = Some times
      /\ self_datetime self' = Some (map Datetime64_s times)
      /\ self_trigger self' = Some triggers
      /\ length times = total_entries noise_files
      /\ length triggers = total_entries noise_files
      /\ self_temperature self' = self_temperature self
      /\ self_power self' = self_power self
      /\ self_station_id self' = self_station_id self
      /\ self_dtms self' = self_dtms self
      /\ self_run_number self' = self_run_number self
      /\ self_nevts self' = self_nevts self).
Proof.
  intros self' times triggers. subst self'.
  unfold begin, bindM, lift.
  destruct (begin_loop mV read_temperatures read_power noise_files
              empty_accumulators) as [acc|] eqn:Hloop; [|left; reflexivity].
  apply begin_loop_accumulators in Hloop.
  destruct Hloop as [Hd [Ht [Hp _]]].
  cbn [acc_data acc_trigger acc_posix_times empty_accumulators app]
    in Hd, Ht, Hp.
  destruct (concatenate3 (acc_data acc)) as [data|] eqn:Hc;
    [|left; reflexivity].
  apply concatenate3_rows in Hc. destruct Hc as [Hrows Hne].
  assert (noise_files <> []) as Hfiles.
  { intros Hnil. apply Hne. rewrite Hd, Hnil. reflexivity. }
  cbn [set_data].
  rewrite Hp, Ht.
  rewrite !concatenate_nonempty
    by (destruct noise_files; [congruence | discriminate]).
  cbn [set_posix_time getattr self_posix_time set_datetime set_trigger].
  rewrite load_read_temperature.
  right. cbn [fst snd self_data self_posix_time self_datetime self_trigger
                self_temperature self_power self_station_id self_dtms
                self_run_number self_nevts].
  split; [reflexivity|]. split; [exact Hfiles|]. split.
  - exists data. split; [reflexivity|].
    assert (rows data = concat (map (file_rows mV) noise_files)) as Hr
      by (rewrite Hrows, Hd; apply rows_file_arrays).
    split; [exact Hr|]. rewrite Hr. apply length_file_rows.
  - fold times. fold triggers. repeat split.
    + apply length_concat_per_entry.
    + apply length_concat_per_entry.
Qed.

Section BeginReadable.

Variable mV : Q.






End BeginReadable.



(** X5. If a file of the list has no calibration tree, [begin] assigns no
    attribute, whatever the other files and the flags. *)
Theorem begin_missing_CalibTree (mV : Q) (noise_files : list noise_file)
    (read_temperatures read_power : bool) (self : importer)
    (nf : noise_file) :
  In nf noise_files ->
  CalibTree nf = None ->
  exists e,
    begin mV noise_files read_temperatures read_power self
    = (self, Raise e).
Proof.
  intros Hin Hnone. unfold begin, bindM, lift.
  destruct (begin_loop mV read_temperatures read_power noise_files
              empty_accumulators) as [acc|e] eqn:Hloop; [|eauto].
  apply begin_loop_accumulators in Hloop.
  destruct Hloop as [_ [_ [_ Hall]]].
  rewrite Forall_forall in Hall. now apply Hall in Hin.
Qed.

Lemma begin_missing_CalibTree_witness :
  exists e,
    begin (1 # 1000)
      [example_file;
       {| CalibTree := None; TemperatureTree := None; VoltageTree := None |}]
      false false new_importer
    = (new_importer, Raise e).
Proof.
  apply (begin_missing_CalibTree (1 # 1000) _ false false new_importer
           {| CalibTree := None; TemperatureTree := None;
              VoltageTree := None |}).
  - right. left. reflexivity.
  - reflexivity.
Defined.

(** ** [run] on a whole station *)

Lemma length_zip_with {A B C : Type} (g : A -> B -> C) (l : list A) :
  forall m, length l = length m -> length (zip_with g l m) = length m.
Proof.
  induction l as [|a l IH]; intros [|b m] H; try reflexivity;
    try discriminate.
  simpl. f_equal. apply IH. simpl in H. lia.
Qed.

Lemma iadd_length (a b c : list Q) :
  iadd a b = Ok c -> length c = length b.
Proof.
  unfold iadd. destruct (Nat.eqb_spec (length a) (length b));
    [|discriminate].
  intros H; injection H as <-. now apply length_zip_with.
Qed.

Section RunStation.

Variable mV : Q.

Lemma add_noise_preserves (data : ndarray3) (noise_event channel_id : Z)
    (channel channel' : Channel) :
  add_noise mV data noise_event channel_id channel = Ok channel' ->
  get_id channel' = get_id channel
  /\ get_sampling_rate channel' = get_sampling_rate channel
  /\ length (get_trace channel') = length (get_trace channel).
Proof.
  unfold add_noise.
  destruct (np_getitem (rows data) noise_event) as [event|]; [|discriminate].
  cbn [bind].
  destruct (np_getitem event channel_id) as [w|]; [|discriminate].
  cbn [bind].
  destruct (iadd (scale mV w) (get_trace channel)) as [t|] eqn:Hi;
    [|discriminate].
  cbn [bind]. intros H; injection H as <-.
  cbn [set_trace get_id get_sampling_rate get_trace].
  repeat split. now apply iadd_length in Hi.
Qed.

Lemma run_channel_preserves (self : importer) (u : Z)
    (channel channel' : Channel) (warned : list log_record) :
  run_channel mV self u channel = (warned, Ok channel') ->
  get_id channel' = get_id channel
  /\ get_sampling_rate channel' = get_sampling_rate channel
  /\ length (get_trace channel') = length (get_trace channel).
Proof.
  unfold run_channel.
  destruct (self_nevts self) as [nevts|]; [|discriminate].
  destruct (randint 0 (Z.of_nat nevts) u) as [noise_event|]; [|discriminate].
  destruct (self_data self) as [data|]; [|discriminate].
  destruct (check_channel _ _) as [[channel_id w]|]; [|discriminate].
  destruct (negb _).
  - cbn [logger_warning forallb]. intros H; injection H as _ <-. auto.
  - intros H; injection H as _ H. now apply add_noise_preserves in H.
Qed.

Lemma run_channel_warnings_le (self : importer) (u : Z) (channel : Channel) :
  length (fst (run_channel mV self u channel)) <= 2.
Proof.
  unfold run_channel.
  destruct (self_nevts self) as [nevts|]; [|simpl; lia].
  destruct (randint 0 (Z.of_nat nevts) u) as [noise_event|]; [|simpl; lia].
  destruct (self_data self) as [data|]; [|simpl; lia].
  unfold check_channel.
  destruct (get_id channel >? Z.of_nat (dim1 data) - 1)%Z.
  - destruct (Z.of_nat (dim1 data) =? 0)%Z; simpl; lia.
  - destruct (negb _); simpl; lia.
Qed.

Lemma run_from_app (self : importer) (rng : nat -> Z)
    (l1 l2 : list Channel) :
  forall k,
  run_from mV self rng k (l1 ++ l2)
  = match run_from mV self rng k l1 with
    | (st1, w1, Some e) => ((st1 ++ l2)%list, w1, Some e)
    | (st1, w1, None) =>
        match run_from mV self rng (k + length l1) l2 with
        | (st2, w2, e) => ((st1 ++ st2)%list, (w1 ++ w2)%list, e)
        end
    end.
Proof.
  induction l1 as [|ch l1 IH]; intros k.
  - cbn [app run_from length]. rewrite Nat.add_0_r.
    destruct (run_from mV self rng k l2) as [[st2 w2] e]. reflexivity.
  - cbn [app run_from length].
    destruct (run_channel mV self (rng k) ch) as [w [ch'|e]];
      [|reflexivity].
    rewrite IH. replace (k + S (length l1)) with (S k + length l1) by lia.
    destruct (run_from mV self rng (S k) l1) as [[st1 w1] [e|]].
    + reflexivity.
    + destruct (run_from mV self rng (S k + length l1) l2)
        as [[st2 w2] e].
      now rewrite app_assoc.
Qed.

End RunStation.

(** X6. On the importer that [begin] leaves behind, whatever the files
    and the flags, [run] on a station with a channel ends in the
    AttributeError of [nevts]: no channel is changed and nothing is
    logged. *)
Theorem run_after_begin (mV : Q) (noise_files : list noise_file)
    (read_temperatures read_power : bool) (rng : nat -> Z)
    (station : list Channel) :
  station <> [] ->
  run mV
    (fst (begin mV noise_files read_temperatures read_power new_importer))
    rng station
  = (station, [], Some (AttributeError "nevts")).
Proof.
  intros Hne.
  destruct (begin_leaves_unassigned mV noise_files read_temperatures
              read_power new_importer) as [_ [_ [_ [_ [_ Hn]]]]].
  cbn [self_nevts new_importer] in Hn.
  destruct station as [|ch rest]; [congruence|].
  unfold run. cbn [run_from]. unfold run_channel. rewrite Hn. reflexivity.
Qed.

Lemma run_after_begin_witness :
  run (1 # 1000)
    (fst (begin (1 # 1000) [example_file] false false new_importer))
    (fun k => Z.of_nat k) [example_channel 0 [0%Q]]
  = ([example_channel 0 [0%Q]], [], Some (AttributeError "nevts")).
Proof.
  apply (run_after_begin (1 # 1000) [example_file] false false
           (fun k => Z.of_nat k) [example_channel 0 [0%Q]]).
  discriminate.
Defined.

(** X7. [run] keeps the station in shape: whatever the importer, the
    draws and the exceptions, the channels after the call are as many as
    before, in the same order, with the same ids, the same sampling rates
    and traces of the same lengths. *)
Theorem run_preserves_channels (mV : Q) (self : importer) (rng : nat -> Z)
    (station : list Channel) :
  let station' := fst (fst (run mV self rng station)) in
  length station' = length station
  /\ map get_id station' = map get_id station
  /\ map get_sampling_rate station' = map get_sampling_rate station
  /\ map (fun c => length (get_trace c)) station'
     = map (fun c => length (get_trace c)) station.
Proof.
  unfold run. generalize 0 as k.
  induction station as [|ch rest IH]; intros k; [cbn; auto|].
  cbn [run_from].
  destruct (run_channel mV self (rng k) ch) as [w [ch'|e]] eqn:Hch.
  - apply run_channel_preserves in Hch. destruct Hch as [Hid [Hr Hl]].
    specialize (IH (S k)).
    destruct (run_from mV self rng (S k) rest) as [[rest' w'] e].
    cbn [fst snd] in *. destruct IH as [H1 [H2 [H3 H4]]].
    cbn [length map]. rewrite H1, H2, H3, H4, Hid, Hr, Hl. auto.
  - cbn [fst]. auto.
Qed.

(** X8. The channels are treated one by one: [run] on two lists of
    channels in a row is [run] on the first list followed, if that raised
    nothing, by [run] on the second list with the following draws; an
    exception in the first list leaves the second list untouched. *)
Theorem run_concatenation (mV : Q) (self : importer) (rng : nat -> Z)
    (l1 l2 : list Channel) :
  run mV self rng (l1 ++ l2)
  = match run mV self rng l1 with
    | (st1, w1, Some e) => ((st1 ++ l2)%list, w1, Some e)
    | (st1, w1, None) =>
        match run mV self (fun k => rng (length l1 + k)) l2 with
        | (st2, w2, e) => ((st1 ++ st2)%list, (w1 ++ w2)%list, e)
        end
    end.
Proof.
  unfold run. rewrite run_from_app. cbn [Nat.add].
  destruct (run_from mV self rng 0 l1) as [[st1 w1] [e|]]; [reflexivity|].
  assert (forall l k j,
             run_from mV self (fun i => rng (j + i)) k l
             = run_from mV self rng (j + k) l) as Hshift.
  { induction l as [|ch l IH]; intros k j; [reflexivity|].
    cbn [run_from]. rewrite IH.
    replace (j + S k) with (S (j + k)) by lia. reflexivity. }
  rewrite Hshift, Nat.add_0_r. reflexivity.
Qed.

(** X9. [run] logs at most two warnings per channel of the station. *)
Theorem run_warnings_bound (mV : Q) (self : importer) (rng : nat -> Z)
    (station : list Channel) :
  length (snd (fst (run mV self rng station))) <= 2 * length station.
Proof.
  unfold run. generalize 0 at 1 as k.
  induction station as [|ch rest IH]; intros k; [cbn; lia|].
  cbn [run_from].
  pose proof (run_channel_warnings_le mV self (rng k) ch) as Hle.
  destruct (run_channel mV self (rng k) ch) as [w [ch'|e]].
  - specialize (IH (S k)).
    destruct (run_from mV self rng (S k) rest) as [[rest' w'] e].
    cbn [fst snd length] in *. rewrite length_app. lia.
  - cbn [fst snd length] in *. lia.
Qed.

Lemma np_getitem_below {A : Type} (l : list A) (i : Z) :
  (i < - Z.of_nat (length l))%Z -> np_getitem l i = Raise IndexError.
Proof.
  intros Hi. unfold np_getitem.
  destruct (Z.ltb_spec i 0); [|lia].
  destruct (Z.leb_spec 0 (i + Z.of_nat (length l))); [lia|].
  reflexivity.
Qed.

(** X10. A station whose channels all have an id among the channels of the
    corpus and a trace of the length of the noise is treated without any
    warning, whatever the draws. *)
Theorem run_without_warnings (mV : Q) (self : importer) (data : ndarray3)
    (rng : nat -> Z) (station : list Channel) :
  self_data self = Some data ->
  Forall (fun channel =>
            (0 <= get_id channel < Z.of_nat (dim1 data))%Z
            /\ length (get_trace channel) = dim2 data) station ->
  snd (fst (run mV self rng station)) = [].
Proof.
  intros Hd Hall. unfold run. generalize 0 as k.
  induction Hall as [|ch rest [Hid Hlen] _ IH]; intros k; [reflexivity|].
  cbn [run_from].
  assert (fst (run_channel mV self (rng k) ch) = []) as Hw.
  { unfold run_channel.
    destruct (self_nevts self) as [nevts|]; [|reflexivity].
    destruct (randint 0 (Z.of_nat nevts) (rng k)); [|reflexivity].
    rewrite Hd. unfold check_channel.
    destruct (Z.gtb_spec (get_id ch) (Z.of_nat (dim1 data) - 1)); [lia|].
    rewrite Hlen, Nat.eqb_refl. reflexivity. }
  destruct (run_channel mV self (rng k) ch) as [w [ch'|e]];
    cbn [fst] in Hw; subst w.
  - specialize (IH (S k)).
    destruct (run_from mV self rng (S k) rest) as [[rest' w'] e].
    cbn [fst snd app] in *. exact IH.
  - reflexivity.
Qed.

Lemma run_without_warnings_witness :
  snd (fst (run (1 # 1000) (corpus_of example_data) (fun k => Z.of_nat k)
              [example_channel 0 [0%Q; 0%Q];
               example_channel 3 [1%Q; 1%Q]]))
  = [].
Proof.
  apply (run_without_warnings (1 # 1000) (corpus_of example_data)
           example_data (fun k => Z.of_nat k)
           [example_channel 0 [0%Q; 0%Q]; example_channel 3 [1%Q; 1%Q]]).
  - reflexivity.
  - repeat constructor; vm_compute; discriminate.
Defined.

(** X11. With a corpus of no channels, a channel whose id is not negative
    ends [run] in a ZeroDivisionError: the remainder modulo the number of
    channels is taken before anything is logged or changed. *)
Theorem run_no_channels_in_corpus (mV : Q) (self : importer)
    (data : ndarray3) (nevts : nat) (rng : nat -> Z) (channel : Channel)
    (rest : list Channel) :
  self_nevts self = Some nevts ->
  self_data self = Some data ->
  dim1 data = 0 ->
  (0 <= get_id channel)%Z ->
  run mV self rng (channel :: rest)
  = (channel :: rest, [], Some ZeroDivisionError).
Proof.
  intros Hn Hd H0 Hid. unfold run. cbn [run_from].
  rewrite (run_channel_assigned mV self data nevts (rng 0) channel Hn Hd).
  unfold check_channel. rewrite H0. cbn [Z.of_nat].
  destruct (Z.gtb_spec (get_id channel) (0 - 1)); [reflexivity | lia].
Qed.

Lemma run_no_channels_in_corpus_witness :
  run (1 # 1000) (corpus_of {| dim1 := 0; dim2 := 2; rows := [[]] |})
    (fun k => Z.of_nat k) [example_channel 0 [0%Q; 0%Q]]
  = ([example_channel 0 [0%Q; 0%Q]], [], Some ZeroDivisionError).
Proof.
  apply (run_no_channels_in_corpus (1 # 1000)
           (corpus_of {| dim1 := 0; dim2 := 2; rows := [[]] |})
           {| dim1 := 0; dim2 := 2; rows := [[]] |} 1
           (fun k => Z.of_nat k) (example_channel 0 [0%Q; 0%Q]) []);
    reflexivity.
Defined.

(** X12. A negative channel id of magnitude above the number of channels
    is not caught by the channel check: with a trace of the length of the
    noise and a drawn event in range, the access to the channel is out
    of bounds and the call ends in an IndexError, without a warning. *)
Theorem negative_id_out_of_bounds (mV : Q) (self : importer)
    (data : ndarray3) (nevts : nat) (u noise_event : Z)
    (channel : Channel) :
  self_nevts self = Some nevts ->
  self_data self = Some data ->
  wf_ndarray3 data ->
  (get_id channel < - Z.of_nat (dim1 data))%Z ->
  length (get_trace channel) = dim2 data ->
  randint 0 (Z.of_nat nevts) u = Ok noise_event ->
  (noise_event < Z.of_nat (length (rows data)))%Z ->
  run_channel mV self u channel = ([], Raise IndexError).
Proof.
  intros Hn Hd Hwf Hid Hlen Hr Hev.
  rewrite (run_channel_assigned mV self data nevts u channel Hn Hd).
  unfold check_channel.
  destruct (Z.gtb_spec (get_id channel) (Z.of_nat (dim1 data) - 1)); [lia|].
  rewrite Hlen, Nat.eqb_refl. cbn [negb]. f_equal.
  pose proof (randint_0_range nevts u noise_event Hr).
  rewrite randint_0 in Hr. injection Hr as ->.
  unfold add_noise.
  rewrite (np_getitem_in_range []) by lia. cbn [bind].
  destruct (wf_event data (Z.to_nat noise_event) Hwf) as [Hl _]; [lia|].
  rewrite np_getitem_below by (rewrite Hl; lia). reflexivity.
Qed.

Lemma negative_id_out_of_bounds_witness :
  run_channel (1 # 1000) (corpus_of example_data) 0
    (example_channel (-5) [0%Q; 0%Q])
  = ([], Raise IndexError).
Proof.
  refine (negative_id_out_of_bounds (1 # 1000) (corpus_of example_data)
            example_data 2 0 0 (example_channel (-5) [0%Q; 0%Q])
            eq_refl eq_refl _ _ eq_refl eq_refl _).
  - repeat constructor.
  - reflexivity.
  - reflexivity.
Defined.


(** X15. With [read_power], [begin] assigns no attribute at all, for every
    list of files: the first file already ends the loop in an exception,
    and an empty list ends [begin] in [np.concatenate]. *)
Theorem begin_read_power_assigns_nothing (mV : Q)
    (noise_files : list noise_file) (read_temperatures : bool)
    (self : importer) :
  exists e,
    begin mV noise_files read_temperatures true self = (self, Raise e).
Proof.
  unfold begin, bindM, lift.
  destruct noise_files as [|nf rest].
  - cbn. eauto.
  - cbn [begin_loop].
    destruct (begin_file_read_power mV read_temperatures nf
                empty_accumulators) as [e ->].
    cbn [bind]. eauto.
Qed.


(** ** The trigger map *)

(** X16. [ARIANNA_TRIGGER] has seven entries, with seven different names
    and seven different values.  Every value is a single bit of a byte,
    [2 ^ b] with [b] from 0 to 7 and not 4, and the values of two
    different kinds of trigger have no bit in common. *)
Theorem trigger_map_single_bits :
  length ARIANNA_TRIGGER = 7
  /\ NoDup (map fst ARIANNA_TRIGGER)
  /\ NoDup (map snd ARIANNA_TRIGGER)
  /\ (forall name v, In (name, v) ARIANNA_TRIGGER ->
        exists b, v = (2 ^ b)%Z /\ (0 <= b < 8)%Z /\ b <> 4%Z)
  /\ (forall name1 v1 name2 v2,
        In (name1, v1) ARIANNA_TRIGGER ->
        In (name2, v2) ARIANNA_TRIGGER ->
        name1 <> name2 ->
        v1 <> v2 /\ Z.land v1 v2 = 0%Z).
Proof.
  split; [reflexivity|]. split; [|split; [|split]].
  - cbn. repeat constructor; cbn; intuition discriminate.
  - cbn. repeat constructor; cbn; intuition discriminate.
  - intros name v Hin. cbv [ARIANNA_TRIGGER In] in Hin.
    repeat (destruct Hin as [Hin|Hin];
            [injection Hin as _ <-;
             first [ exists 0%Z; split; [reflexivity | lia]
                   | exists 1%Z; split; [reflexivity | lia]
                   | exists 2%Z; split; [reflexivity | lia]
                   | exists 3%Z; split; [reflexivity | lia]
                   | exists 5%Z; split; [reflexivity | lia]
                   | exists 6%Z; split; [reflexivity | lia]
                   | exists 7%Z; split; [reflexivity | lia] ]|]).
    contradiction.
  - intros name1 v1 name2 v2 H1 H2 Hneq.
    cbv [ARIANNA_TRIGGER In] in H1, H2.
    repeat (destruct H1 as [H1|H1]; [injection H1 as <- <-|]);
      try contradiction;
      repeat (destruct H2 as [H2|H2]; [injection H2 as <- <-|]);
      try contradiction;
      first [ congruence | split; [discriminate | reflexivity] ].
Qed.

Lemma trigger_map_single_bits_witness :
  (2 ^ 0)%Z <> (2 ^ 3)%Z /\ Z.land (2 ^ 0) (2 ^ 3) = 0%Z.
Proof.
  apply (proj2 (proj2 (proj2 (proj2 trigger_map_single_bits)))
           "thermal"%string (2 ^ 0)%Z "l1"%string (2 ^ 3)%Z).
  - cbn. auto 10.
  - cbn. auto 10.
  - discriminate.
Defined.

(** ** When [run] raises *)

(** X17. When [run] raises on a channel.  With a well-formed corpus whose
    [nevts] is its number of events, the treatment of a channel ends in
    an exception exactly in these cases: the id is at least the number
    of channels of the corpus (a ZeroDivisionError if the corpus has no
    channels, else the TypeError of the warning of the channel check);
    or the trace has the length of the noise and either the draw is
    [nevts] or the id lies below [-nchans] (an IndexError). *)
Theorem run_channel_raises_iff (mV : Q) (self : importer) (data : ndarray3)
    (nevts : nat) (u : Z) (channel : Channel) :
  self_nevts self = Some nevts ->
  self_data self = Some data ->
  wf_ndarray3 data ->
  length (rows data) = nevts ->
  ((exists e, snd (run_channel mV self u channel) = Raise e)
   <-> (Z.of_nat (dim1 data) <= get_id channel)%Z
       \/ (length (get_trace channel) = dim2 data
           /\ ((u mod (Z.of_nat nevts + 1))%Z = Z.of_nat nevts
               \/ (get_id channel < - Z.of_nat (dim1 data))%Z)))
  /\ ((Z.of_nat (dim1 data) <= get_id channel)%Z ->
      run_channel mV self u channel
      = ([], Raise (if (dim1 data =? 0)%nat then ZeroDivisionError
                    else TypeError)))
  /\ ((get_id channel < Z.of_nat (dim1 data))%Z ->
      length (get_trace channel) = dim2 data ->
      (u mod (Z.of_nat nevts + 1))%Z = Z.of_nat nevts
      \/ (get_id channel < - Z.of_nat (dim1 data))%Z ->
      run_channel mV self u channel = ([], Raise IndexError)).
Proof.
  intros Hn Hd Hwf Hlen.
  rewrite (run_channel_assigned mV self data nevts u channel Hn Hd).
  pose proof (Z.mod_pos_bound u (Z.of_nat nevts + 1)) as Hu.
  set (noise_event := (u mod (Z.of_nat nevts + 1))%Z) in *.
  assert (forall channel_id,
             noise_event = Z.of_nat nevts ->
             add_noise mV data noise_event channel_id channel
             = Raise IndexError) as Hpast.
  { intros channel_id He. unfold add_noise. rewrite He, <- Hlen.
    now rewrite np_getitem_length. }
  assert (noise_event <> Z.of_nat nevts ->
          (get_id channel < - Z.of_nat (dim1 data))%Z ->
          add_noise mV data noise_event (get_id channel) channel
          = Raise IndexError) as Hbelow.
  { intros He Hid. unfold add_noise.
    rewrite (np_getitem_in_range []) by lia. cbn [bind].
    destruct (wf_event data (Z.to_nat noise_event) Hwf) as [Hl _]; [lia|].
    now rewrite np_getitem_below by (rewrite Hl; lia). }
  destruct (Z_le_gt_dec (Z.of_nat (dim1 data)) (get_id channel))
    as [Hge|Hlt].
  - assert (check_channel (Z.of_nat (dim1 data)) (get_id channel)
            = Raise (if (dim1 data =? 0)%nat then ZeroDivisionError
                     else TypeError)) as Hcheck.
    { destruct (Nat.eqb_spec (dim1 data) 0) as [H0|H0].
      - unfold check_channel. rewrite H0 in *. cbn [Z.of_nat] in *.
        destruct (Z.gtb_spec (get_id channel) (0 - 1)); [reflexivity | lia].
      - apply check_channel_remap. lia. }
    rewrite Hcheck. cbn [snd].
    split; [|split].
    + split; [intros _; now left | eauto].
    + reflexivity.
    + intros Hc. lia.
  - rewrite check_channel_ok by lia.
    destruct (Nat.eqb_spec (dim2 data) (length (get_trace channel)))
      as [Hm|Hm]; cbn [negb snd app].
    + assert (noise_event = Z.of_nat nevts
              \/ (get_id channel < - Z.of_nat (dim1 data))%Z ->
              add_noise mV data noise_event (get_id channel) channel
              = Raise IndexError) as Hraise.
      { intros Hc.
        destruct (Z.eq_dec noise_event (Z.of_nat nevts)) as [He|He];
          [now apply Hpast|].
        destruct Hc as [Hc|Hc]; [contradiction | now apply Hbelow]. }
      split; [|split].
      * split.
        -- intros [e He]. right. split; [now symmetry|].
           destruct (Z.eq_dec noise_event (Z.of_nat nevts)) as [Hev|Hev];
             [now left|].
           destruct (Z_lt_le_dec (get_id channel)
                       (- Z.of_nat (dim1 data))) as [Hb|Hin];
             [now right|].
           exfalso.
           destruct (Z_lt_le_dec (get_id channel) 0) as [Hneg|Hpos].
           ++ rewrite add_noise_negative in He;
                [discriminate | exact Hwf | now symmetry | lia | lia].
           ++ rewrite add_noise_in_range in He;
                [discriminate | exact Hwf | now symmetry | lia | lia].
        -- intros [Hc|[_ Hc]]; [lia|]. rewrite (Hraise Hc). eauto.
      * intros Hc. lia.
      * intros _ _ Hc. now rewrite (Hraise Hc).
    + split; [|split].
      * split; [intros [e He']; discriminate|].
        intros [Hc|[Hc _]]; [lia | congruence].
      * intros Hc. lia.
      * intros _ Hc. congruence.
Qed.

Lemma run_channel_raises_iff_witness :
  run_channel (1 # 1000) (corpus_of example_data) 1
    (example_channel 6 [0%Q; 0%Q])
  = ([], Raise TypeError).
Proof.
  refine (proj1 (proj2 (run_channel_raises_iff (1 # 1000)
                          (corpus_of example_data) example_data 2 1
                          (example_channel 6 [0%Q; 0%Q])
                          eq_refl eq_refl _ eq_refl)) _).
  - repeat constructor.
  - vm_compute. discriminate.
Defined.

Lemma read_bunched_sizes_witness :
  length (rows (nth 2 (read_bunched (1 # 1000) long_tree)
                  (AmpOutData_full example_tree)))
  = Nat.min 1000 (num_entries long_tree - 2 * 1000)
  /\ 1 <= length (rows (nth 2 (read_bunched (1 # 1000) long_tree)
                          (AmpOutData_full example_tree))) <= 1000.
Proof.
  apply (proj2 (read_bunched_sizes (1 # 1000) long_tree) 2
           (AmpOutData_full example_tree)).
  vm_compute. lia.
Defined.

